(** * Schema normalisation of exported engagement tables

    A shallow embedding of [standardize_data] from
    [xiaohongshu_analyst.py] and the properties of its result.

    Python strings are sequences of Unicode code points, numbers are IEEE
    binary64 values (the dtype a column has after [pd.to_numeric(...).fillna(0)]),
    a pandas frame is an ordered list of labelled columns in which a label
    may occur more than once, and a Python exception is a value of the
    error monad [result]. *)

From Stdlib Require Import List Bool NArith Arith Lia String Ascii Permutation.
From Stdlib Require Import PrimFloat.
Import ListNotations.

(* ===================================================================== *)
(** ** Python strings *)
(* ===================================================================== *)

Module PyStr.

Local Open Scope N_scope.

(** A [str] is its sequence of code points. *)
Definition t := list N.

Fixpoint eqb (a b : t) : bool :=
  match a, b with
  | [], [] => true
  | x :: a', y :: b' => N.eqb x y && eqb a' b'
  | _, _ => false
  end.

(** [str.isspace] on one code point: the table CPython's
    [_PyUnicode_IsWhitespace] implements. *)
Definition isspace (c : N) : bool :=
  ((0x09 <=? c) && (c <=? 0x0D)) || ((0x1C <=? c) && (c <=? 0x20))
  || (c =? 0x85) || (c =? 0xA0) || (c =? 0x1680)
  || ((0x2000 <=? c) && (c <=? 0x200A))
  || (c =? 0x2028) || (c =? 0x2029) || (c =? 0x202F) || (c =? 0x205F)
  || (c =? 0x3000).

Fixpoint lstrip (s : t) : t :=
  match s with
  | c :: r => if isspace c then lstrip r else s
  | [] => []
  end.

Definition rstrip (s : t) : t := rev (lstrip (rev s)).

(** [s.strip()] *)
Definition strip (s : t) : t := rstrip (lstrip s).

Fixpoint startswith (p s : t) : bool :=
  match p, s with
  | [], _ => true
  | x :: p', y :: s' => N.eqb x y && startswith p' s'
  | _ :: _, [] => false
  end.

(** [needle in hay] on two strings: substring search. *)
Fixpoint contains (needle hay : t) : bool :=
  startswith needle hay ||
  match hay with
  | [] => false
  | _ :: r => contains needle r
  end.

(** [x in xs] on a list of strings. *)
Definition mem (x : t) (xs : list t) : bool := existsb (eqb x) xs.

(** Decoding of a UTF-8 literal, so that the column names of the source can
    be written as they appear there. *)
Fixpoint utf8_decode (bs : list N) : t :=
  match bs with
  | [] => []
  | b :: r =>
      if b <? 0x80 then b :: utf8_decode r
      else if b <? 0xE0 then
        match r with
        | c1 :: r1 => ((b - 0xC0) * 64 + (c1 - 0x80)) :: utf8_decode r1
        | _ => []
        end
      else if b <? 0xF0 then
        match r with
        | c1 :: c2 :: r2 =>
            ((b - 0xE0) * 4096 + (c1 - 0x80) * 64 + (c2 - 0x80)) :: utf8_decode r2
        | _ => []
        end
      else
        match r with
        | c1 :: c2 :: c3 :: r3 =>
            ((b - 0xF0) * 262144 + (c1 - 0x80) * 4096 + (c2 - 0x80) * 64 + (c3 - 0x80))
              :: utf8_decode r3
        | _ => []
        end
  end.

Definition lit (s : string) : t :=
  utf8_decode (map N_of_ascii (list_ascii_of_string s)).

End PyStr.

Definition pystr : Type := PyStr.t.
Notation "'py' s" := (PyStr.lit s%string) (at level 9, s at level 0, only parsing).

(* ===================================================================== *)
(** ** Exceptions *)
(* ===================================================================== *)

Inductive pyerr : Type := TypeError | KeyError.

Inductive result (A : Type) : Type :=
| OK (a : A)
| Raise (e : pyerr).

Arguments OK {A} a.
Arguments Raise {A} e.

Definition bind {A B : Type} (r : result A) (k : A -> result B) : result B :=
  match r with
  | OK a => k a
  | Raise e => Raise e
  end.

Notation "x <- c ;; k" := (bind c (fun x => k))
  (at level 61, c at next level, right associativity).

(* ===================================================================== *)
(** ** Cells, series and frames *)
(* ===================================================================== *)

(** A cell of a loaded table: a number ([nan] for a blank) or a text. *)
Inductive cell : Type :=
| Num (f : float)
| Str (s : pystr).

Definition column : Type := (pystr * list cell)%type.

(** A frame: the length of its index and its columns in order. Labels need
    not be distinct. *)
Record DataFrame : Type := mkFrame {
  nrows : nat;
  data : list column
}.

(** [df.columns.tolist()] *)
Definition columns (df : DataFrame) : list pystr := map fst (data df).

(** Every column is as long as the index. *)
Definition wf_frame (df : DataFrame) : bool :=
  forallb (fun c => Nat.eqb (List.length (snd c)) (nrows df)) (data df).

(** [df.columns = [f(c) for c in df.columns]], in place. *)
Definition relabel (f : pystr -> pystr) (df : DataFrame) : DataFrame :=
  mkFrame (nrows df) (map (fun c => (f (fst c), snd c)) (data df)).

(** [d.get(k, k)] on a dict written as its list of items. *)
Fixpoint dict_get (d : list (pystr * pystr)) (k : pystr) : pystr :=
  match d with
  | [] => k
  | (k', v) :: r => if PyStr.eqb k' k then v else dict_get r k
  end.

(** [df.rename(columns=d)]: a new frame, every label looked up in [d]. *)
Definition rename (d : list (pystr * pystr)) (df : DataFrame) : DataFrame :=
  relabel (dict_get d) df.

(** What [df[key]] evaluates to: a Series when one column carries the
    label, a DataFrame of all of them when several do. *)
Inductive selection : Type :=
| Series (s : list cell)
| Frame (cs : list column).

Definition has_label (key : pystr) (c : column) : bool := PyStr.eqb (fst c) key.

Definition getitem (df : DataFrame) (key : pystr) : result selection :=
  match filter (has_label key) (data df) with
  | [] => Raise KeyError
  | [c] => OK (Series (snd c))
  | cs => OK (Frame cs)
  end.

(** [df[key] = s] for a Series [s]: every column labelled [key] takes the
    values of [s]; a new column is appended when none is. *)
Definition setitem (df : DataFrame) (key : pystr) (s : list cell) : DataFrame :=
  if PyStr.mem key (columns df)
  then mkFrame (nrows df)
         (map (fun c => if has_label key c then (fst c, s) else c) (data df))
  else mkFrame (nrows df) (data df ++ [(key, s)]).

(** [df[key] = x] for a scalar [x]. *)
Definition setitem_scalar (df : DataFrame) (key : pystr) (x : cell) : DataFrame :=
  setitem df key (repeat x (nrows df)).

(** A [for] loop whose body may raise. *)
Fixpoint for_each {A S : Type} (xs : list A) (body : S -> A -> result S) (s : S)
  : result S :=
  match xs with
  | [] => OK s
  | x :: r => s' <- body s x ;; for_each r body s'
  end.

(* ===================================================================== *)
(** ** Numeric series *)
(* ===================================================================== *)

(** [s.fillna(0)] *)
Definition fillna0 (s : list float) : list float :=
  map (fun f => if is_nan f then 0%float else f) s.

(** [a + b] and [a / b] on two float64 Series over the same index. *)
Definition series_add (a b : list float) : list float :=
  map (fun p => PrimFloat.add (fst p) (snd p)) (combine a b).

Definition series_div (a b : list float) : list float :=
  map (fun p => PrimFloat.div (fst p) (snd p)) (combine a b).

(** [s.sum()]: blanks are skipped. *)
Definition series_sum (s : list float) : float :=
  fold_left (fun acc f => if is_nan f then acc else PrimFloat.add acc f) s 0%float.

Fixpoint floats_of (s : list cell) : option (list float) :=
  match s with
  | [] => Some []
  | Num f :: r => option_map (cons f) (floats_of r)
  | Str _ :: _ => None
  end.

(** [df[key]] read as a float64 Series, which is what it is wherever the
    source does arithmetic on it (after the loop of line 84); on a
    DataFrame or on text pandas does not produce numbers. *)
Definition numeric (df : DataFrame) (key : pystr) : result (list float) :=
  sel <- getitem df key ;;
  match sel with
  | Series s => match floats_of s with Some fs => OK fs | None => Raise TypeError end
  | Frame _ => Raise TypeError
  end.

(* ===================================================================== *)
(** ** The adapter *)
(* ===================================================================== *)

Inductive platform : Type := Xiaohongshu | Channels | Unknown.

(** The label strings the source returns. *)
Definition platform_name (p : platform) : pystr :=
  match p with
  | Xiaohongshu => py "小红书 (Xiaohongshu)"
  | Channels => py "视频号 (WeChat Channels)"
  | Unknown => py "Unknown"
  end.

(** The canonical fields, under the names the source gives them. *)
Definition TITLE : pystr := py "标题".
Definition IMPRESSIONS : pystr := py "曝光".
Definition VIEWS : pystr := py "观看".
Definition LIKES : pystr := py "点赞".
Definition COMMENTS : pystr := py "评论".
Definition FAVORITES : pystr := py "收藏".
Definition SHARES : pystr := py "分享".
Definition NEW_FOLLOWERS : pystr := py "涨粉".
Definition CTR : pystr := py "CTR".
Definition ENGAGEMENT_TOTAL : pystr := py "互动总量".
Definition FORWARDED : pystr := py "转发聊天和朋友圈".
Definition NOTE_TITLE : pystr := py "笔记标题".

Definition needed_cols : list pystr :=
  [TITLE; IMPRESSIONS; VIEWS; LIKES; COMMENTS; FAVORITES; SHARES; NEW_FOLLOWERS; CTR].

(** [rename_map] of the first branch (lines 25-35). *)
Definition rename_map_xhs : list (pystr * pystr) :=
  [ (py "笔记标题", TITLE);
    (py "曝光", IMPRESSIONS);
    (py "观看量", VIEWS);
    (py "封面点击率", CTR);
    (py "点赞", LIKES);
    (py "评论", COMMENTS);
    (py "收藏", FAVORITES);
    (py "分享", SHARES);
    (py "涨粉", NEW_FOLLOWERS) ].

(** [rename_map] of the second branch (lines 42-61). *)
Definition rename_map_channels : list (pystr * pystr) :=
  [ (py "视频描述", TITLE);
    (py "动态描述", TITLE);
    (py "内容", TITLE);
    (py "播放量", VIEWS);
    (py "浏览次数", VIEWS);
    (py "观看次数", VIEWS);
    (py "喜欢", LIKES);
    (py "点赞次数", LIKES);
    (py "评论量", COMMENTS);
    (py "评论次数", COMMENTS);
    (py "收藏次数", FAVORITES);
    (py "分享量", SHARES);
    (py "转发次数", SHARES);
    (py "分享次数", SHARES);
    (py "关注量", NEW_FOLLOWERS);
    (py "净增关注", NEW_FOLLOWERS);
    (py "推荐", IMPRESSIONS);
    (py "推荐次数", IMPRESSIONS) ].

(** The two signatures (lines 23 and 39). *)
Definition is_xiaohongshu (columns : list pystr) : bool :=
  existsb (fun col => PyStr.contains NOTE_TITLE col) columns.

Definition is_channels (columns : list pystr) : bool :=
  existsb (fun x => PyStr.mem x columns) [py "视频描述"; py "动态描述"; py "内容"].

Section Normalizer.

(** The reader [pd.to_numeric] applies to a text cell: [None] where it
    finds no number. It belongs to pandas, not to this repository. *)
Variable parse_number : pystr -> option float.

Definition to_number (c : cell) : float :=
  match c with
  | Num f => f
  | Str s => match parse_number s with Some f => f | None => nan end
  end.

(** [pd.to_numeric(sel, errors='coerce')]: a DataFrame is refused. *)
Definition to_numeric (sel : selection) : result (list float) :=
  match sel with
  | Series s => OK (map to_number s)
  | Frame _ => Raise TypeError
  end.

(** Lines 79-81. *)
Definition fill_missing (df_std : DataFrame) (col : pystr) : DataFrame :=
  if PyStr.mem col (columns df_std) then df_std
  else setitem_scalar df_std col (Num 0%float).

(** Line 85. *)
Definition coerce_column (df_std : DataFrame) (col : pystr) : result DataFrame :=
  sel <- getitem df_std col ;;
  s <- to_numeric sel ;;
  OK (setitem df_std col (map Num (fillna0 s))).

(** Lines 88-91. *)
Definition ctr_fallback (df_std : DataFrame) : result DataFrame :=
  ctr <- numeric df_std CTR ;;
  if PrimFloat.eqb (series_sum ctr) 0%float then
    imp <- numeric df_std IMPRESSIONS ;;
    if PrimFloat.ltb 0%float (series_sum imp) then
      views <- numeric df_std VIEWS ;;
      if PrimFloat.ltb 0%float (series_sum views) then
        imp' <- numeric df_std IMPRESSIONS ;;
        views' <- numeric df_std VIEWS ;;
        if PrimFloat.ltb (series_sum views') (series_sum imp') then
          v <- numeric df_std VIEWS ;;
          i <- numeric df_std IMPRESSIONS ;;
          OK (setitem df_std CTR (map Num (series_div v i)))
        else OK df_std
      else OK df_std
    else OK df_std
  else OK df_std.

(** Line 94. *)
Definition engagement (df_std : DataFrame) : result DataFrame :=
  likes <- numeric df_std LIKES ;;
  comments <- numeric df_std COMMENTS ;;
  favorites <- numeric df_std FAVORITES ;;
  shares <- numeric df_std SHARES ;;
  OK (setitem df_std ENGAGEMENT_TOTAL
        (map Num (series_add (series_add (series_add likes comments) favorites) shares))).

(** Lines 75-94, shared by the two platforms. *)
Definition clean (df_std : DataFrame) : result DataFrame :=
  let df_std := fold_left fill_missing needed_cols df_std in
  df_std <- for_each (tl needed_cols) coerce_column df_std ;;
  df_std <- ctr_fallback df_std ;;
  engagement df_std.

(** Lines 64-70. *)
Definition merge_shares (df df_std : DataFrame) : result DataFrame :=
  if PyStr.mem FORWARDED (columns df) && PyStr.mem SHARES (columns df_std) then
    sel1 <- getitem df_std SHARES ;;
    s1 <- to_numeric sel1 ;;
    let share_1 := fillna0 s1 in
    sel2 <- getitem df FORWARDED ;;
    s2 <- to_numeric sel2 ;;
    let share_2 := fillna0 s2 in
    OK (setitem df_std SHARES (map Num (series_add share_1 share_2)))
  else OK df_std.

(** What the function returns: frame, platform, field list. *)
Definition output : Type := (DataFrame * platform * list pystr)%type.

(** The body of [standardize_data] on the caller's frame once line 19 has
    stripped its labels. *)
Definition standardize_stripped (df : DataFrame) : result output :=
  let columns := columns df in
  if is_xiaohongshu columns then
    let df_std := rename rename_map_xhs df in
    df_std <- clean df_std ;;
    OK (df_std, Xiaohongshu, needed_cols)
  else if is_channels columns then
    let df_std := rename rename_map_channels df in
    df_std <- merge_shares df df_std ;;
    df_std <- clean df_std ;;
    OK (df_std, Channels, needed_cols)
  else OK (df, Unknown, []).

(** [standardize_data(df)]. Line 19 assigns the stripped labels to the
    caller's frame itself: the first component is that frame as the call
    leaves it, whether the call returns or raises, and it is the very object
    the third branch returns. *)
Definition standardize_data (df : DataFrame) : DataFrame * result output :=
  let df := relabel PyStr.strip df in
  (df, standardize_stripped df).

End Normalizer.

(* ===================================================================== *)
(** ** Vocabulary of the statements *)
(* ===================================================================== *)

(** The eight numeric canonical fields: [needed_cols[1:]]. *)
Definition numeric_cols : list pystr := tl needed_cols.

(** The column line 85 reads for field [key]: the mapped column when the
    frame has one, the zeros of line 81 otherwise. *)
Definition mapped_or_default (df_std : DataFrame) (key : pystr) : list cell :=
  match filter (has_label key) (data df_std) with
  | c :: _ => snd c
  | [] => repeat (Num 0%float) (nrows df_std)
  end.

(** Exactly one column carries the label. *)
Definition single (df : DataFrame) (key : pystr) : bool :=
  Nat.eqb (List.length (filter (has_label key) (data df))) 1.

(** At most one column carries the label. *)
Definition at_most_one (df : DataFrame) (key : pystr) : bool :=
  Nat.leb (List.length (filter (has_label key) (data df))) 1.

(** The test of lines 88 and 90 on the three sums. *)
Definition ctr_guard (ctr imp views : list float) : bool :=
  PrimFloat.eqb (series_sum ctr) 0%float
  && PrimFloat.ltb 0%float (series_sum imp)
  && PrimFloat.ltb 0%float (series_sum views)
  && PrimFloat.ltb (series_sum views) (series_sum imp).

Definition not_nan (f : float) : Prop := is_nan f = false.

Section Coercion.

Variable parse : pystr -> option float.

(** Line 85 on one Series: [pd.to_numeric(s, errors='coerce').fillna(0)]. *)
Definition coerce_series (s : list cell) : list float :=
  fillna0 (map (to_number parse) s).

Definition coerce_cells (s : list cell) : list cell := map Num (coerce_series s).

(** Line 85 on one column of a frame, for the labels [ks]. *)
Definition coerce_labelled (ks : list pystr) (c : column) : column :=
  if PyStr.mem (fst c) ks then (fst c, coerce_cells (snd c)) else c.

End Coercion.

Section Stages.

Variable parse : pystr -> option float.

(** Field [key] as line 85 leaves it. *)
Definition field (df_std : DataFrame) (key : pystr) : list float :=
  coerce_series parse (mapped_or_default df_std key).

(** The frame after lines 79-85: completed, then coerced. *)
Definition coerced_frame (df_std : DataFrame) : DataFrame :=
  let d := fold_left fill_missing needed_cols df_std in
  mkFrame (nrows d) (map (coerce_labelled parse numeric_cols) (data d)).

(** The CTR series after lines 88-91. *)
Definition ctr_values (df_std : DataFrame) : list float :=
  if ctr_guard (field df_std CTR) (field df_std IMPRESSIONS) (field df_std VIEWS)
  then series_div (field df_std VIEWS) (field df_std IMPRESSIONS)
  else field df_std CTR.

(** The series line 94 assigns. *)
Definition engagement_values (df_std : DataFrame) : list float :=
  series_add
    (series_add (series_add (field df_std LIKES) (field df_std COMMENTS))
       (field df_std FAVORITES))
    (field df_std SHARES).

(** The frame [clean] returns when it returns. *)
Definition cleaned (df_std : DataFrame) : DataFrame :=
  let d2 := coerced_frame df_std in
  let d3 :=
    if ctr_guard (field df_std CTR) (field df_std IMPRESSIONS) (field df_std VIEWS)
    then setitem d2 CTR
           (map Num (series_div (field df_std VIEWS) (field df_std IMPRESSIONS)))
    else d2 in
  setitem d3 ENGAGEMENT_TOTAL (map Num (engagement_values df_std)).

(** The frame lines 64-70 leave when they return. *)
Definition merged (df df_std : DataFrame) : DataFrame :=
  if PyStr.mem FORWARDED (columns df) && PyStr.mem SHARES (columns df_std)
  then setitem df_std SHARES
         (map Num (series_add (field df_std SHARES) (field df FORWARDED)))
  else df_std.

(** The frame handed to the shared stage, for a stripped frame that matched
    a platform. *)
Definition mapped_frame (df : DataFrame) : DataFrame :=
  if is_xiaohongshu (columns df) then rename rename_map_xhs df
  else merged df (rename rename_map_channels df).

(** What [standardize_stripped] returns when it returns. *)
Definition normalized (df : DataFrame) : output :=
  if is_xiaohongshu (columns df) then (cleaned (mapped_frame df), Xiaohongshu, needed_cols)
  else if is_channels (columns df) then (cleaned (mapped_frame df), Channels, needed_cols)
  else (df, Unknown, []).

End Stages.

(** The labels of a stripped frame let [standardize_stripped] return: after
    renaming no numeric canonical label is carried by two columns, and on
    the second branch the forwarded column, where it is read, is not
    doubled either. *)
Definition normalizable (df : DataFrame) : bool :=
  if is_xiaohongshu (columns df)
  then forallb (at_most_one (rename rename_map_xhs df)) numeric_cols
  else if is_channels (columns df)
  then forallb (at_most_one (rename rename_map_channels df)) numeric_cols
       && (negb (PyStr.mem SHARES (columns (rename rename_map_channels df)))
           || at_most_one df FORWARDED)
  else true.

Arguments PyStr.lit : simpl never.
(* ===================================================================== *)
(** ** Sample frames *)
(* ===================================================================== *)

(** The rename table of a platform. *)
Definition rename_map_of (p : platform) : list (pystr * pystr) :=
  match p with
  | Xiaohongshu => rename_map_xhs
  | Channels => rename_map_channels
  | Unknown => []
  end.

(** A reader that finds no number in any text. The texts of the frames
    below ("A", "B", "N/A", "x") hold none. *)
Definition reads_nothing : pystr -> option float := fun _ => None.

(** A header with both signatures. *)
Definition both_signatures : DataFrame :=
  mkFrame 1 [ (py "内容", [Str (py "B")]); (py "笔记标题", [Str (py "A")]) ].

(** Shares in two columns; the first header is padded. *)
Definition split_shares : DataFrame :=
  mkFrame 2 [ (py " 视频描述", [Str (py "A"); Str (py "B")]);
              (py "分享量", [Num 3%float; Num 5%float]);
              (py "转发聊天和朋友圈", [Num 2%float; Num 1%float]) ].

(** Shares that cancel: plus and minus infinity. *)
Definition cancelling_shares : DataFrame :=
  mkFrame 1 [ (py "内容", [Str (py "A")]);
              (py "分享量", [Num infinity]);
              (py "转发聊天和朋友圈", [Num neg_infinity]) ].

(** No CTR column, and a row without impressions. *)
Definition zero_impression_row : DataFrame :=
  mkFrame 2 [ (py "笔记标题", [Str (py "A"); Str (py "B")]);
              (py "观看量", [Num 1%float; Num 1%float]);
              (py "曝光", [Num 0%float; Num 3%float]) ].

(** Matches the first signature and has none of the nine fields. *)
Definition no_canonical_field : DataFrame :=
  mkFrame 2 [ (py "笔记标题1", [Str (py "A"); Str (py "B")]) ].

(** No signature; one header is padded. *)
Definition padded_unknown : DataFrame :=
  mkFrame 1 [ (py " foo", [Num 1%float]); (py "bar", [Str (py "x")]) ].

(** A negative count. *)
Definition negative_views : DataFrame :=
  mkFrame 1 [ (py "笔记标题", [Str (py "A")]); (py "观看量", [Num (-5)%float]) ].

(** A text in a numeric column. *)
Definition unparseable_views : DataFrame :=
  mkFrame 2 [ (py "笔记标题", [Str (py "A"); Str (py "B")]);
              (py "观看量", [Str (py "N/A"); Num 7%float]) ].


(** Two synonyms of the views. *)
Definition views_synonyms : DataFrame :=
  mkFrame 1 [ (py "内容", [Str (py "A")]);
              (py "播放量", [Num 1%float]);
              (py "浏览次数", [Num 0%float]) ].

(** A column no table knows. *)
Definition with_remark : DataFrame :=
  mkFrame 1 [ (py "视频描述", [Str (py "A")]);
              (py " 备注 ", [Str (py "x")]);
              (py "播放量", [Num 4%float]) ].

(** Both signatures, and the views twice once the labels are stripped. *)
Definition both_signatures_doubled : DataFrame :=
  mkFrame 1 [ (py "笔记标题", [Str (py "A")]);
              (py "内容", [Str (py "B")]);
              (py "观看量", [Num 1%float]);
              (py "观看量 ", [Num 2%float]) ].

(** Two headers with the same set of stripped labels: the second repeats
    a label of the first, padded. *)
Definition plays_once : DataFrame :=
  mkFrame 1 [ (py "内容", [Str (py "A")]); (py "播放量", [Num 1%float]) ].

Definition plays_twice : DataFrame :=
  mkFrame 1 [ (py "内容", [Str (py "A")]);
              (py "播放量", [Num 1%float]);
              (py "播放量 ", [Num 2%float]) ].

(** No impressions and no views in the first row. *)
Definition empty_first_row : DataFrame :=
  mkFrame 2 [ (py "笔记标题", [Str (py "A"); Str (py "B")]);
              (py "观看量", [Num 0%float; Num 1%float]);
              (py "曝光", [Num 0%float; Num 3%float]) ].

(** The signatures as the specification words them: some name contains
    the note-title text; some name is exactly one of the three description
    names. *)
Definition has_note_title (names : list pystr) : Prop :=
  exists name before after,
    In name names /\ name = before ++ NOTE_TITLE ++ after.

Definition has_description (names : list pystr) : Prop :=
  In (py "视频描述") names \/ In (py "动态描述") names \/ In (py "内容") names.

(** The frame a result carries; the empty frame when it raised. *)
Definition returned_frame (r : result output) : DataFrame :=
  match r with
  | OK (d, _, _) => d
  | Raise _ => mkFrame 0 []
  end.

(* ===================================================================== *)
(** ** The loader (lines 98-113) *)
(* ===================================================================== *)

(** [s.endswith(suffix)] *)
Definition endswith (suffix s : pystr) : bool :=
  PyStr.startswith (rev suffix) (rev s).

(** The three encodings line 102, 105 and 107 ask for. *)
Inductive encoding : Type := UTF8 | GBK | UTF16.

Section Loader.

(** The uploaded bytes together with the read position, and what a failed
    read raises. A read may move the position; the readers belong to
    pandas. *)
Variable stream : Type.
Variable exn : Type.
Variable read_csv : encoding -> stream -> stream * (exn + DataFrame).
Variable read_excel : stream -> stream * (exn + DataFrame).

Record UploadedFile : Type := mkUpload {
  upload_name : pystr;
  upload_stream : stream
}.

(** What [load_data] leaves behind and returns: the stream, the exceptions
    handed to [st.error], and the frame or [None]. *)
Record loaded : Type := mkLoaded {
  stream_after : stream;
  reported : list exn;
  returned : option DataFrame
}.

(** [load_data(file)] *)
Definition load_data (file : UploadedFile) : loaded :=
  let attempt :=
    if endswith (py ".csv") (upload_name file) then
      match read_csv UTF8 (upload_stream file) with
      | (s1, inr df) => (s1, inr df)
      | (s1, inl _) =>
          match read_csv GBK s1 with
          | (s2, inr df) => (s2, inr df)
          | (s2, inl _) => read_csv UTF16 s2
          end
      end
    else read_excel (upload_stream file) in
  match attempt with
  | (s, inr df) => mkLoaded s [] (Some df)
  | (s, inl e) => mkLoaded s [e] None
  end.

End Loader.

Arguments mkUpload {stream} upload_name upload_stream.
Arguments upload_name {stream} u.
Arguments upload_stream {stream} u.
Arguments mkLoaded {stream exn} stream_after reported returned.
Arguments stream_after {stream exn} l.
Arguments reported {stream exn} l.
Arguments returned {stream exn} l.
Arguments load_data {stream exn} read_csv read_excel file.

(* ===================================================================== *)
(** ** The page: what it computes from the returned frame (lines 138-253) *)
(* ===================================================================== *)

(** [df[key].sum()] *)
Definition column_sum (df : DataFrame) (key : pystr) : result float :=
  s <- numeric df key ;; OK (series_sum s).

(** The three totals of lines 138-140: views, engagement, new followers. *)
Definition kpi_sums (df : DataFrame) : result (float * float * float) :=
  v <- column_sum df VIEWS ;;
  e <- column_sum df ENGAGEMENT_TOTAL ;;
  f <- column_sum df NEW_FOLLOWERS ;;
  OK (v, e, f).

(** Line 144. *)
Definition has_valid_exposure (df : DataFrame) : result bool :=
  i <- column_sum df IMPRESSIONS ;;
  v <- column_sum df VIEWS ;;
  OK (PrimFloat.ltb v i).


(** The lambda of line 187 on [str(x)]. *)
Definition short_title (s : pystr) : pystr :=
  if Nat.ltb 20 (List.length s) then firstn 20 s ++ py "..." else s.





(** A label that has neither signature. *)
Definition plain (x : pystr) : Prop :=
  PyStr.contains NOTE_TITLE x = false /\
  x <> py "视频描述" /\ x <> py "动态描述" /\ x <> py "内容".

(* ===================================================================== *)
(** ** More sample data *)
(* ===================================================================== *)

(** A title of twenty-one characters. *)
Definition long_title : pystr := py "abcdefghijklmnopqrstu".

(** Two columns under the engagement total once the labels are stripped. *)
Definition doubled_engagement : DataFrame :=
  mkFrame 1 [ (py "内容", [Str (py "A")]);
              (py "互动总量", [Num 1%float]);
              (py " 互动总量", [Num 2%float]) ].

(* ===================================================================== *)
(** ** Strings: comparison and membership *)
(* ===================================================================== *)

Lemma pystr_eqb_eq (a b : pystr) : PyStr.eqb a b = true <-> a = b.
Proof.
  revert b; induction a as [|x a IH]; intros [|y b]; simpl; split;
    try discriminate; try reflexivity.
  - intros H. apply andb_prop in H as [Hx Hab].
    apply N.eqb_eq in Hx. apply IH in Hab. now subst.
  - intros H. injection H as -> ->.
    rewrite N.eqb_refl. simpl. now apply IH.
Qed.

Lemma pystr_eqb_refl (a : pystr) : PyStr.eqb a a = true.
Proof. now apply pystr_eqb_eq. Qed.

Lemma pystr_eqb_neq (a b : pystr) : PyStr.eqb a b = false <-> a <> b.
Proof.
  split.
  - intros H E. apply pystr_eqb_eq in E. congruence.
  - intros H. destruct (PyStr.eqb a b) eqn:E; [|reflexivity].
    apply pystr_eqb_eq in E. contradiction.
Qed.

Lemma pystr_eqb_sym (a b : pystr) : PyStr.eqb a b = PyStr.eqb b a.
Proof.
  destruct (PyStr.eqb b a) eqn:E.
  - apply pystr_eqb_eq in E. subst. apply pystr_eqb_refl.
  - apply pystr_eqb_neq in E. apply pystr_eqb_neq. congruence.
Qed.

Lemma mem_In (x : pystr) (xs : list pystr) : PyStr.mem x xs = true <-> In x xs.
Proof.
  unfold PyStr.mem. rewrite existsb_exists. split.
  - intros (y & Hy & E). apply pystr_eqb_eq in E. now subst.
  - intros H. exists x. split; [assumption | apply pystr_eqb_refl].
Qed.

Lemma mem_not_In (x : pystr) (xs : list pystr) : PyStr.mem x xs = false <-> ~ In x xs.
Proof.
  rewrite <- mem_In. destruct (PyStr.mem x xs); split; congruence.
Qed.

(* ===================================================================== *)
(** ** Frames: selecting and assigning columns *)
(* ===================================================================== *)

Lemma has_label_true (key : pystr) (c : column) : has_label key c = true <-> fst c = key.
Proof. apply pystr_eqb_eq. Qed.

Lemma has_label_false (key : pystr) (c : column) : has_label key c = false <-> fst c <> key.
Proof. apply pystr_eqb_neq. Qed.

Lemma filter_label_map (key : pystr) (g : column -> column) (l : list column) :
  (forall c, fst (g c) = fst c) ->
  filter (has_label key) (map g l) = map g (filter (has_label key) l).
Proof.
  intros Hg. induction l as [|c l IH]; simpl; [reflexivity|].
  assert (E : has_label key (g c) = has_label key c)
    by (unfold has_label; now rewrite Hg).
  rewrite E. destruct (has_label key c); simpl; now rewrite IH.
Qed.

Lemma filter_label_In (key : pystr) (l : list column) (c : column) :
  In c (filter (has_label key) l) <-> In c l /\ fst c = key.
Proof. rewrite filter_In, has_label_true. reflexivity. Qed.

Lemma filter_label_nil (key : pystr) (l : list column) :
  filter (has_label key) l = [] <-> ~ In key (map fst l).
Proof.
  induction l as [|c l IH]; simpl.
  - split; [intros _ [] | reflexivity].
  - destruct (has_label key c) eqn:E.
    + apply has_label_true in E. split; [discriminate | intros H; exfalso; apply H; now left].
    + apply has_label_false in E. rewrite IH. split.
      * intros H [H1|H1]; [contradiction | now apply H].
      * intros H H1. apply H. now right.
Qed.

Lemma mem_columns_filter (key : pystr) (df : DataFrame) :
  PyStr.mem key (columns df) = false <-> filter (has_label key) (data df) = [].
Proof. rewrite mem_not_In, filter_label_nil. reflexivity. Qed.

(** Reading a label that one column carries. *)
Lemma getitem_unique (df : DataFrame) (key : pystr) (c : column) :
  filter (has_label key) (data df) = [c] -> getitem df key = OK (Series (snd c)).
Proof. unfold getitem. now intros ->. Qed.

Lemma getitem_Series_inv (df : DataFrame) (key : pystr) (s : list cell) :
  getitem df key = OK (Series s) ->
  exists c, filter (has_label key) (data df) = [c] /\ snd c = s.
Proof.
  unfold getitem. destruct (filter (has_label key) (data df)) as [|c [|c' l]];
    try discriminate.
  intros H. injection H as <-. now exists c.
Qed.

Lemma nrows_setitem (df : DataFrame) (key : pystr) (s : list cell) :
  nrows (setitem df key s) = nrows df.
Proof. unfold setitem. now destruct (PyStr.mem key (columns df)). Qed.

(** Assigning to a label leaves the columns under every other label as
    they are. *)
Lemma filter_setitem_other (df : DataFrame) (key k : pystr) (s : list cell) :
  k <> key ->
  filter (has_label k) (data (setitem df key s)) = filter (has_label k) (data df).
Proof.
  intros Hk. unfold setitem. destruct (PyStr.mem key (columns df)); simpl.
  - induction (data df) as [|c l IH]; simpl; [reflexivity|].
    destruct (has_label key c) eqn:E; simpl.
    + apply has_label_true in E.
      assert (Hc : has_label k c = false) by (apply has_label_false; congruence).
      unfold has_label at 1. simpl. fold (has_label k c). now rewrite Hc.
    + destruct (has_label k c); now rewrite IH.
  - rewrite filter_app. simpl.
    assert (Hc : has_label k (key, s) = false) by (apply has_label_false; simpl; congruence).
    rewrite Hc. apply app_nil_r.
Qed.

Lemma getitem_setitem_other (df : DataFrame) (key k : pystr) (s : list cell) :
  k <> key -> getitem (setitem df key s) k = getitem df k.
Proof. intros Hk. unfold getitem. now rewrite filter_setitem_other. Qed.

Lemma numeric_setitem_other (df : DataFrame) (key k : pystr) (s : list cell) :
  k <> key -> numeric (setitem df key s) k = numeric df k.
Proof. intros Hk. unfold numeric. now rewrite getitem_setitem_other. Qed.

(** Assigning to a label gives every column under it the assigned values,
    and there is at least one such column afterwards. *)
Lemma filter_setitem_same (df : DataFrame) (key : pystr) (s : list cell) :
  filter (has_label key) (data (setitem df key s)) =
  match filter (has_label key) (data df) with
  | [] => [(key, s)]
  | l => map (fun c => (fst c, s)) l
  end.
Proof.
  unfold setitem. destruct (PyStr.mem key (columns df)) eqn:M; simpl.
  - assert (H : filter (has_label key)
                  (map (fun c => if has_label key c then (fst c, s) else c) (data df))
                = map (fun c => (fst c, s)) (filter (has_label key) (data df))).
    { clear M. induction (data df) as [|c l IH]; simpl; [reflexivity|].
      destruct (has_label key c) eqn:E; simpl.
      - unfold has_label at 1. simpl. fold (has_label key c). rewrite E. simpl. now rewrite IH.
      - rewrite E. apply IH. }
    rewrite H. destruct (filter (has_label key) (data df)) eqn:F; [|reflexivity].
    apply mem_columns_filter in F. congruence.
  - rewrite filter_app. simpl.
    apply mem_columns_filter in M. rewrite M. simpl.
    unfold has_label. simpl. now rewrite pystr_eqb_refl.
Qed.

Lemma columns_setitem_present (df : DataFrame) (key : pystr) (s : list cell) :
  PyStr.mem key (columns df) = true -> columns (setitem df key s) = columns df.
Proof.
  intros M. unfold setitem. rewrite M. unfold columns. simpl.
  rewrite map_map. apply map_ext. intros c. now destruct (has_label key c).
Qed.


(* ===================================================================== *)
(** ** Numbers *)
(* ===================================================================== *)

Lemma fillna0_not_nan (s : list float) : Forall not_nan (fillna0 s).
Proof.
  unfold fillna0. apply Forall_forall. intros f Hf.
  apply in_map_iff in Hf as (g & <- & _). unfold not_nan.
  destruct (is_nan g) eqn:E; [reflexivity | assumption].
Qed.

Lemma fillna0_id (s : list float) : Forall not_nan s -> fillna0 s = s.
Proof.
  induction 1 as [|f s Hf _ IH]; simpl; [reflexivity|].
  unfold not_nan in Hf. rewrite Hf. f_equal. exact IH.
Qed.

Lemma fillna0_length (s : list float) : List.length (fillna0 s) = List.length s.
Proof. apply length_map. Qed.

Lemma floats_of_Num (fs : list float) : floats_of (map Num fs) = Some fs.
Proof. induction fs as [|f fs IH]; simpl; [reflexivity | now rewrite IH]. Qed.

Lemma series_sum_zeros (n : nat) : series_sum (repeat 0%float n) = 0%float.
Proof.
  unfold series_sum. induction n as [|n IH]; simpl; [reflexivity | exact IH].
Qed.

Lemma series_add_length (a b : list float) :
  List.length (series_add a b) = Nat.min (List.length a) (List.length b).
Proof. unfold series_add. now rewrite length_map, length_combine. Qed.

Lemma series_div_length (a b : list float) :
  List.length (series_div a b) = Nat.min (List.length a) (List.length b).
Proof. unfold series_div. now rewrite length_map, length_combine. Qed.

Lemma nth_error_combine {A B : Type} (a : list A) (b : list B) (i : nat) (x : A) (y : B) :
  nth_error a i = Some x -> nth_error b i = Some y ->
  nth_error (combine a b) i = Some (x, y).
Proof.
  revert b i. induction a as [|x' a IH]; intros [|y' b] [|i]; simpl;
    try discriminate.
  - now intros [= ->] [= ->].
  - apply IH.
Qed.

Lemma series_add_nth (a b : list float) (i : nat) (x y : float) :
  nth_error a i = Some x -> nth_error b i = Some y ->
  nth_error (series_add a b) i = Some (PrimFloat.add x y).
Proof.
  intros Ha Hb. unfold series_add.
  rewrite nth_error_map, (nth_error_combine _ _ _ _ _ Ha Hb). reflexivity.
Qed.

Lemma series_div_nth (a b : list float) (i : nat) (x y : float) :
  nth_error a i = Some x -> nth_error b i = Some y ->
  nth_error (series_div a b) i = Some (PrimFloat.div x y).
Proof.
  intros Ha Hb. unfold series_div.
  rewrite nth_error_map, (nth_error_combine _ _ _ _ _ Ha Hb). reflexivity.
Qed.

Lemma forallb_pointwise {A : Type} (f g : A -> bool) (l : list A) :
  (forall x, f x = g x) -> forallb f l = forallb g l.
Proof.
  intros H. induction l as [|x l IH]; simpl; [reflexivity | now rewrite H, IH].
Qed.

Lemma forallb_pointwise_in {A : Type} (f g : A -> bool) (l : list A) :
  (forall x, In x l -> f x = g x) -> forallb f l = forallb g l.
Proof.
  intros H. induction l as [|x l IH]; simpl; [reflexivity|].
  rewrite H by now left. rewrite IH; [reflexivity|].
  intros y Hy. apply H. now right.
Qed.

Section Properties.

Variable parse : pystr -> option float.

Lemma coerce_series_not_nan (s : list cell) : Forall not_nan (coerce_series parse s).
Proof. apply fillna0_not_nan. Qed.

Lemma coerce_series_length (s : list cell) :
  List.length (coerce_series parse s) = List.length s.
Proof. unfold coerce_series. now rewrite fillna0_length, length_map. Qed.

Lemma coerce_series_Num (fs : list float) : coerce_series parse (map Num fs) = fillna0 fs.
Proof. unfold coerce_series. rewrite map_map. simpl. now rewrite map_id. Qed.

(** Coercing twice is coercing once. *)
Lemma coerce_cells_idem (s : list cell) :
  coerce_cells parse (coerce_cells parse s) = coerce_cells parse s.
Proof.
  unfold coerce_cells. rewrite coerce_series_Num.
  now rewrite (fillna0_id _ (coerce_series_not_nan s)).
Qed.

(** A text pandas reads no number from, and a blank, become 0. *)
Lemma coerce_series_unparseable (s : list cell) (i : nat) (t : pystr) :
  nth_error s i = Some (Str t) -> parse t = None ->
  nth_error (coerce_series parse s) i = Some 0%float.
Proof.
  intros Hi Hp. unfold coerce_series, fillna0.
  rewrite !nth_error_map, Hi. simpl. rewrite Hp. reflexivity.
Qed.

Lemma coerce_series_number (s : list cell) (i : nat) (f : float) :
  nth_error s i = Some (Num f) -> not_nan f ->
  nth_error (coerce_series parse s) i = Some f.
Proof.
  intros Hi Hf. unfold coerce_series, fillna0.
  rewrite !nth_error_map, Hi. simpl. unfold not_nan in Hf. now rewrite Hf.
Qed.

Lemma coerce_series_zeros (n : nat) :
  coerce_series parse (repeat (Num 0%float) n) = repeat 0%float n.
Proof.
  unfold coerce_series, fillna0. induction n as [|n IH]; simpl; [reflexivity|].
  now rewrite IH.
Qed.

(* ===================================================================== *)
(** ** Completion (lines 79-81) *)
(* ===================================================================== *)

Lemma nrows_fill_missing (df : DataFrame) (k : pystr) :
  nrows (fill_missing df k) = nrows df.
Proof.
  unfold fill_missing, setitem_scalar.
  destruct (PyStr.mem k (columns df)); [reflexivity | apply nrows_setitem].
Qed.

Lemma nrows_completed (ks : list pystr) (df : DataFrame) :
  nrows (fold_left fill_missing ks df) = nrows df.
Proof.
  revert df. induction ks as [|k ks IH]; intros df; simpl; [reflexivity|].
  now rewrite IH, nrows_fill_missing.
Qed.

Lemma data_fill_missing (df : DataFrame) (k : pystr) :
  data (fill_missing df k) =
  if PyStr.mem k (columns df) then data df
  else data df ++ [(k, repeat (Num 0%float) (nrows df))].
Proof.
  unfold fill_missing, setitem_scalar, setitem.
  destruct (PyStr.mem k (columns df)); reflexivity.
Qed.

Lemma filter_fill_missing (df : DataFrame) (k K : pystr) :
  filter (has_label K) (data (fill_missing df k)) =
  if PyStr.eqb K k
  then match filter (has_label K) (data df) with
       | [] => [(K, repeat (Num 0%float) (nrows df))]
       | l => l
       end
  else filter (has_label K) (data df).
Proof.
  rewrite data_fill_missing.
  destruct (PyStr.eqb K k) eqn:E.
  - apply pystr_eqb_eq in E. subst k.
    destruct (PyStr.mem K (columns df)) eqn:M.
    + destruct (filter (has_label K) (data df)) eqn:F; [|reflexivity].
      apply mem_columns_filter in F. congruence.
    + rewrite filter_app. apply mem_columns_filter in M. rewrite M. simpl.
      unfold has_label. simpl. now rewrite pystr_eqb_refl.
  - destruct (PyStr.mem k (columns df)); [reflexivity|].
    rewrite filter_app. simpl. unfold has_label at 2. simpl.
    rewrite pystr_eqb_sym, E. apply app_nil_r.
Qed.

(** After completion a label of the list is carried by the columns that
    carried it before, or by one column of zeros. *)
Lemma filter_completed (ks : list pystr) (df : DataFrame) (K : pystr) :
  filter (has_label K) (data (fold_left fill_missing ks df)) =
  if PyStr.mem K ks
  then match filter (has_label K) (data df) with
       | [] => [(K, repeat (Num 0%float) (nrows df))]
       | l => l
       end
  else filter (has_label K) (data df).
Proof.
  revert df. induction ks as [|k ks IH]; intros df; simpl; [reflexivity|].
  rewrite IH, nrows_fill_missing, filter_fill_missing.
  destruct (PyStr.eqb K k) eqn:E; simpl.
  - destruct (filter (has_label K) (data df)) eqn:F;
      destruct (PyStr.mem K ks); reflexivity.
  - reflexivity.
Qed.

(** Completion only appends columns: zeros under labels of the list. *)
Lemma data_completed (ks : list pystr) (df : DataFrame) :
  exists extra,
    data (fold_left fill_missing ks df) = data df ++ extra /\
    Forall (fun c => In (fst c) ks /\ snd c = repeat (Num 0%float) (nrows df)) extra.
Proof.
  revert df. induction ks as [|k ks IH]; intros df; simpl.
  - exists []. split; [now rewrite app_nil_r | constructor].
  - destruct (IH (fill_missing df k)) as (extra & Hd & Hx).
    rewrite Hd, data_fill_missing, nrows_fill_missing in *.
    destruct (PyStr.mem k (columns df)).
    + exists extra. split; [reflexivity|].
      eapply Forall_impl; [|exact Hx]. intros c [H1 H2]. split; [now right | assumption].
    + exists ((k, repeat (Num 0%float) (nrows df)) :: extra). split.
      * now rewrite <- app_assoc.
      * constructor; [split; [now left | reflexivity]|].
        eapply Forall_impl; [|exact Hx]. intros c [H1 H2]. split; [now right | assumption].
Qed.

(* ===================================================================== *)
(** ** Coercion (lines 84-85) *)
(* ===================================================================== *)

Lemma coerce_labelled_fst (ks : list pystr) (c : column) :
  fst (coerce_labelled parse ks c) = fst c.
Proof. unfold coerce_labelled. now destruct (PyStr.mem (fst c) ks). Qed.

(** The frame in which the columns labelled by [ks] have been coerced. *)
Lemma coerce_column_single (df : DataFrame) (k : pystr) :
  single df k = true ->
  coerce_column parse df k =
  OK (mkFrame (nrows df) (map (coerce_labelled parse [k]) (data df))).
Proof.
  unfold single, coerce_column. intros H.
  destruct (filter (has_label k) (data df)) as [|c [|c' l]] eqn:F; try discriminate.
  rewrite (getitem_unique _ _ _ F). simpl. f_equal.
  unfold setitem.
  assert (M : PyStr.mem k (columns df) = true).
  { destruct (PyStr.mem k (columns df)) eqn:M; [reflexivity|].
    apply mem_columns_filter in M. congruence. }
  rewrite M. f_equal. apply map_ext_in. intros c' Hc'.
  unfold coerce_labelled, PyStr.mem. simpl. rewrite orb_false_r.
  fold (has_label k c'). destruct (has_label k c') eqn:E; [|reflexivity].
  assert (Hin : In c' (filter (has_label k) (data df)))
    by (apply filter_In; now split).
  rewrite F in Hin. destruct Hin as [<-|[]]. reflexivity.
Qed.

Lemma coerce_column_not_single (df : DataFrame) (k : pystr) :
  single df k = false -> exists e, coerce_column parse df k = Raise e.
Proof.
  unfold single, coerce_column, getitem. intros H.
  destruct (filter (has_label k) (data df)) as [|c [|c' l]]; try discriminate.
  - now exists KeyError.
  - now exists TypeError.
Qed.

Lemma coerce_labelled_cons (k : pystr) (ks : list pystr) (c : column) :
  coerce_labelled parse ks (coerce_labelled parse [k] c) = coerce_labelled parse (k :: ks) c.
Proof.
  unfold coerce_labelled, PyStr.mem. simpl. rewrite orb_false_r.
  destruct (PyStr.eqb (fst c) k) eqn:E; simpl.
  - destruct (existsb (PyStr.eqb (fst c)) ks); [|reflexivity].
    now rewrite coerce_cells_idem.
  - reflexivity.
Qed.

Lemma single_coerced (df : DataFrame) (ks : list pystr) (k : pystr) :
  single (mkFrame (nrows df) (map (coerce_labelled parse ks) (data df))) k = single df k.
Proof.
  unfold single. simpl.
  rewrite filter_label_map by apply coerce_labelled_fst.
  now rewrite length_map.
Qed.

(** The loop of line 84 returns exactly when each of its labels is carried
    by one column, and then it has coerced those columns in place. *)
Lemma coerce_loop_OK (ks : list pystr) (df : DataFrame) :
  forallb (single df) ks = true ->
  for_each ks (coerce_column parse) df =
  OK (mkFrame (nrows df) (map (coerce_labelled parse ks) (data df))).
Proof.
  revert df. induction ks as [|k ks IH]; intros df H; simpl in *.
  - destruct df as [n d]. simpl. f_equal. f_equal.
    rewrite <- (map_id d) at 1. apply map_ext. intros c. reflexivity.
  - apply andb_prop in H as [Hk Hks].
    rewrite (coerce_column_single _ _ Hk). simpl.
    rewrite IH.
    + simpl. f_equal. f_equal. rewrite map_map. apply map_ext. intros c.
      apply coerce_labelled_cons.
    + rewrite forallb_forall in *. intros x Hx. rewrite single_coerced. now apply Hks.
Qed.

Lemma coerce_loop_Raise (ks : list pystr) (df : DataFrame) :
  forallb (single df) ks = false ->
  exists e, for_each ks (coerce_column parse) df = Raise e.
Proof.
  revert df. induction ks as [|k ks IH]; intros df H; simpl in *; [discriminate|].
  destruct (single df k) eqn:Hk; simpl in H.
  - rewrite (coerce_column_single _ _ Hk). simpl. apply IH.
    rewrite <- H. apply forallb_pointwise. intros x. apply single_coerced.
  - destruct (coerce_column_not_single _ _ Hk) as (e & ->). now exists e.
Qed.

(** Reading a coerced field. *)
Lemma numeric_coerced (df : DataFrame) (ks : list pystr) (k : pystr) (c : column) :
  In k ks -> filter (has_label k) (data df) = [c] ->
  numeric (mkFrame (nrows df) (map (coerce_labelled parse ks) (data df))) k =
  OK (coerce_series parse (snd c)).
Proof.
  intros Hk F. unfold numeric, getitem. simpl.
  rewrite filter_label_map by apply coerce_labelled_fst.
  rewrite F. simpl.
  assert (E : fst c = k).
  { assert (Hin : In c (filter (has_label k) (data df))) by (rewrite F; now left).
    apply filter_label_In in Hin. tauto. }
  unfold coerce_labelled. rewrite E.
  apply mem_In in Hk. rewrite Hk. simpl.
  unfold coerce_cells. now rewrite floats_of_Num.
Qed.

(* ===================================================================== *)
(** ** The shared stage (lines 75-94) in closed form *)
(* ===================================================================== *)

Ltac in_list := cbv [numeric_cols needed_cols tl In]; tauto.

Ltac distinct := apply pystr_eqb_neq; vm_compute; reflexivity.

Lemma numeric_in_needed (K : pystr) : In K numeric_cols -> In K needed_cols.
Proof. cbv [numeric_cols needed_cols tl In]. tauto. Qed.

Lemma engagement_not_numeric (K : pystr) : In K numeric_cols -> K <> ENGAGEMENT_TOTAL.
Proof.
  cbv [numeric_cols needed_cols tl In].
  intros [<-|[<-|[<-|[<-|[<-|[<-|[<-|[<-|[]]]]]]]]]; distinct.
Qed.

Lemma single_completed (df : DataFrame) (K : pystr) :
  In K needed_cols ->
  single (fold_left fill_missing needed_cols df) K = at_most_one df K.
Proof.
  intros HK. unfold single, at_most_one. rewrite filter_completed.
  apply mem_In in HK. rewrite HK.
  destruct (filter (has_label K) (data df)) as [|c [|c' l]]; reflexivity.
Qed.

Lemma singles_completed (df : DataFrame) :
  forallb (single (fold_left fill_missing needed_cols df)) (tl needed_cols) =
  forallb (at_most_one df) numeric_cols.
Proof.
  apply forallb_pointwise_in. intros K HK.
  apply single_completed. now apply numeric_in_needed.
Qed.

Lemma completed_column (df : DataFrame) (K : pystr) :
  In K needed_cols -> at_most_one df K = true ->
  exists c, filter (has_label K) (data (fold_left fill_missing needed_cols df)) = [c]
            /\ snd c = mapped_or_default df K.
Proof.
  intros HK H1. rewrite filter_completed. apply mem_In in HK. rewrite HK.
  unfold at_most_one in H1. unfold mapped_or_default.
  destruct (filter (has_label K) (data df)) as [|c [|c' l]]; try discriminate.
  - eexists. split; reflexivity.
  - exists c. split; reflexivity.
Qed.

Lemma numeric_coerced_frame (df : DataFrame) (K : pystr) :
  In K numeric_cols -> at_most_one df K = true ->
  numeric (coerced_frame parse df) K = OK (field parse df K).
Proof.
  intros HK H1.
  destruct (completed_column df K (numeric_in_needed _ HK) H1) as (c & F & E).
  unfold coerced_frame, field. cbv zeta. rewrite <- E.
  now apply numeric_coerced.
Qed.

Lemma ctr_fallback_coerced (df : DataFrame) :
  forallb (at_most_one df) numeric_cols = true ->
  ctr_fallback (coerced_frame parse df) =
  OK (if ctr_guard (field parse df CTR) (field parse df IMPRESSIONS) (field parse df VIEWS)
      then setitem (coerced_frame parse df) CTR
             (map Num (series_div (field parse df VIEWS) (field parse df IMPRESSIONS)))
      else coerced_frame parse df).
Proof.
  intros H. rewrite forallb_forall in H.
  unfold ctr_fallback, ctr_guard.
  rewrite !numeric_coerced_frame by (try apply H; in_list).
  cbv [bind].
  destruct (PrimFloat.eqb (series_sum (field parse df CTR)) 0); [|reflexivity].
  destruct (PrimFloat.ltb 0 (series_sum (field parse df IMPRESSIONS))); [|reflexivity].
  destruct (PrimFloat.ltb 0 (series_sum (field parse df VIEWS))); [|reflexivity].
  destruct (PrimFloat.ltb (series_sum (field parse df VIEWS))
              (series_sum (field parse df IMPRESSIONS))); reflexivity.
Qed.

(** [clean] returns exactly when no numeric canonical label is carried by
    two columns, and then it returns [cleaned]. *)
Lemma clean_OK (df : DataFrame) :
  forallb (at_most_one df) numeric_cols = true ->
  clean parse df = OK (cleaned parse df).
Proof.
  intros H. unfold clean.
  assert (Hs : forallb (single (fold_left fill_missing needed_cols df)) (tl needed_cols) = true)
    by (rewrite <- H; apply singles_completed).
  rewrite (coerce_loop_OK _ _ Hs). cbv [bind].
  fold numeric_cols. change (mkFrame _ _) with (coerced_frame parse df).
  rewrite (ctr_fallback_coerced _ H).
  unfold engagement, cleaned, engagement_values. cbv zeta.
  rewrite forallb_forall in H.
  destruct (ctr_guard (field parse df CTR) (field parse df IMPRESSIONS) (field parse df VIEWS)).
  - rewrite !numeric_setitem_other by distinct.
    rewrite !numeric_coerced_frame by (try apply H; in_list).
    reflexivity.
  - rewrite !numeric_coerced_frame by (try apply H; in_list).
    reflexivity.
Qed.

Lemma clean_Raise (df : DataFrame) :
  forallb (at_most_one df) numeric_cols = false ->
  exists e, clean parse df = Raise e.
Proof.
  intros H. unfold clean.
  assert (Hs : forallb (single (fold_left fill_missing needed_cols df)) (tl needed_cols) = false)
    by (rewrite <- H; apply singles_completed).
  destruct (coerce_loop_Raise _ _ Hs) as (e & ->). now exists e.
Qed.

(* ===================================================================== *)
(** ** Merging the two share columns (lines 64-70) *)
(* ===================================================================== *)

Lemma at_most_one_setitem (df : DataFrame) (key K : pystr) (s : list cell) :
  at_most_one (setitem df key s) K = at_most_one df K.
Proof.
  unfold at_most_one. destruct (PyStr.eqb K key) eqn:E.
  - apply pystr_eqb_eq in E. subst K. rewrite filter_setitem_same.
    destruct (filter (has_label key) (data df)) as [|c l]; [reflexivity|].
    now rewrite length_map.
  - apply pystr_eqb_neq in E. now rewrite filter_setitem_other.
Qed.

Lemma present_single (df : DataFrame) (key : pystr) :
  PyStr.mem key (columns df) = true -> single df key = at_most_one df key.
Proof.
  intros M. unfold single, at_most_one.
  destruct (filter (has_label key) (data df)) as [|c [|c' l]] eqn:F; try reflexivity.
  apply mem_columns_filter in F. congruence.
Qed.

Lemma to_numeric_getitem (df : DataFrame) (key : pystr) :
  PyStr.mem key (columns df) = true -> at_most_one df key = true ->
  bind (getitem df key) (to_numeric parse)
  = OK (map (to_number parse) (mapped_or_default df key)).
Proof.
  intros M H. unfold at_most_one in H. unfold getitem, mapped_or_default.
  destruct (filter (has_label key) (data df)) as [|c [|c' l]] eqn:F; try discriminate.
  - apply mem_columns_filter in F. congruence.
  - reflexivity.
Qed.

Lemma to_numeric_getitem_Raise (df : DataFrame) (key : pystr) :
  at_most_one df key = false ->
  bind (getitem df key) (to_numeric parse) = Raise TypeError.
Proof.
  intros H. unfold at_most_one in H. unfold getitem.
  destruct (filter (has_label key) (data df)) as [|c [|c' l]]; try discriminate.
  reflexivity.
Qed.

Lemma bind_assoc {A B C : Type} (r : result A) (f : A -> result B) (g : B -> result C) :
  bind (bind r f) g = bind r (fun a => bind (f a) g).
Proof. now destruct r. Qed.

Lemma merge_shares_OK (df df_std : DataFrame) :
  negb (PyStr.mem SHARES (columns df_std)) || at_most_one df FORWARDED = true ->
  at_most_one df_std SHARES = true ->
  merge_shares parse df df_std = OK (merged parse df df_std).
Proof.
  intros Hf Hs. unfold merge_shares, merged.
  destruct (PyStr.mem FORWARDED (columns df)) eqn:Mf; [|reflexivity].
  destruct (PyStr.mem SHARES (columns df_std)) eqn:Ms; [|reflexivity].
  simpl in Hf. cbn [andb].
  rewrite <- bind_assoc, (to_numeric_getitem _ _ Ms Hs). cbn [bind].
  rewrite <- bind_assoc, (to_numeric_getitem _ _ Mf Hf). cbn [bind].
  reflexivity.
Qed.

Lemma merge_shares_Raise (df df_std : DataFrame) :
  PyStr.mem SHARES (columns df_std) = true ->
  at_most_one df FORWARDED = false \/
  (PyStr.mem FORWARDED (columns df) = true /\ at_most_one df_std SHARES = false) ->
  exists e, merge_shares parse df df_std = Raise e.
Proof.
  intros Ms H. unfold merge_shares. rewrite Ms.
  assert (Mf : PyStr.mem FORWARDED (columns df) = true).
  { destruct H as [H|[H _]]; [|assumption].
    destruct (PyStr.mem FORWARDED (columns df)) eqn:M; [reflexivity|].
    apply mem_columns_filter in M. unfold at_most_one in H. rewrite M in H. discriminate. }
  rewrite Mf. cbn [andb].
  destruct (at_most_one df_std SHARES) eqn:Hs.
  - destruct H as [H|[_ H]]; [|discriminate].
    rewrite <- bind_assoc, (to_numeric_getitem _ _ Ms Hs). cbn [bind].
    rewrite <- bind_assoc, (to_numeric_getitem_Raise _ _ H). cbn [bind].
    now exists TypeError.
  - rewrite <- bind_assoc, (to_numeric_getitem_Raise _ _ Hs). cbn [bind].
    now exists TypeError.
Qed.

Lemma at_most_one_merged (df df_std : DataFrame) (K : pystr) :
  at_most_one (merged parse df df_std) K = at_most_one df_std K.
Proof.
  unfold merged.
  destruct (PyStr.mem FORWARDED (columns df) && PyStr.mem SHARES (columns df_std));
    [apply at_most_one_setitem | reflexivity].
Qed.

(* ===================================================================== *)
(** ** [standardize_stripped] in closed form *)
(* ===================================================================== *)

(** The call returns when the labels allow it, and what it returns. *)
Lemma standardize_returns (df : DataFrame) :
  normalizable df = true ->
  standardize_stripped parse df = OK (normalized parse df).
Proof.
  unfold normalizable, standardize_stripped, normalized, mapped_frame. cbv zeta.
  destruct (is_xiaohongshu (columns df)).
  - intros H. rewrite (clean_OK _ H). reflexivity.
  - destruct (is_channels (columns df)); [|reflexivity].
    intros H. apply andb_prop in H as [H1 H2].
    assert (Hs : at_most_one (rename rename_map_channels df) SHARES = true).
    { rewrite forallb_forall in H1. apply H1. in_list. }
    rewrite (merge_shares_OK _ _ H2 Hs). cbn [bind].
    rewrite clean_OK; [reflexivity|].
    rewrite <- H1. apply forallb_pointwise. intros K. apply at_most_one_merged.
Qed.

(** It raises otherwise. *)
Lemma standardize_raises (df : DataFrame) :
  normalizable df = false ->
  exists e, standardize_stripped parse df = Raise e.
Proof.
  unfold normalizable, standardize_stripped. cbv zeta.
  destruct (is_xiaohongshu (columns df)).
  - intros H. destruct (clean_Raise _ H) as (e & ->). now exists e.
  - destruct (is_channels (columns df)); [|discriminate].
    intros H.
    destruct (negb (PyStr.mem SHARES (columns (rename rename_map_channels df)))
              || at_most_one df FORWARDED) eqn:H2.
    + rewrite andb_true_r in H.
      destruct (at_most_one (rename rename_map_channels df) SHARES) eqn:Hs.
      * rewrite (merge_shares_OK _ _ H2 Hs). cbn [bind].
        destruct (clean_Raise (merged parse df (rename rename_map_channels df))) as (e & ->).
        { rewrite <- H. apply forallb_pointwise. intros K. apply at_most_one_merged. }
        now exists e.
      * destruct (PyStr.mem SHARES (columns (rename rename_map_channels df))) eqn:Ms.
        -- destruct (PyStr.mem FORWARDED (columns df)) eqn:Mf.
           ++ destruct (merge_shares_Raise df (rename rename_map_channels df) Ms)
                as (e & ->); [right; now split | now exists e].
           ++ unfold merge_shares. rewrite Mf. cbn [andb bind].
              destruct (clean_Raise (rename rename_map_channels df) H) as (e & ->).
              now exists e.
        -- apply mem_columns_filter in Ms. unfold at_most_one in Hs.
           rewrite Ms in Hs. discriminate.
    + apply orb_false_elim in H2 as [Ms Hf]. apply negb_false_iff in Ms.
      destruct (merge_shares_Raise df (rename rename_map_channels df) Ms) as (e & ->);
        [now left | now exists e].
Qed.

Lemma standardize_OK_inv (df : DataFrame) (r : output) :
  standardize_stripped parse df = OK r ->
  normalizable df = true /\ r = normalized parse df.
Proof.
  intros H. destruct (normalizable df) eqn:N.
  - rewrite (standardize_returns _ N) in H. injection H as <-. now split.
  - destruct (standardize_raises _ N) as (e & He). congruence.
Qed.

(* ===================================================================== *)
(** ** The fields of the returned frame *)
(* ===================================================================== *)

Lemma numeric_setitem_same (df : DataFrame) (key : pystr) (fs : list float) :
  at_most_one df key = true ->
  numeric (setitem df key (map Num fs)) key = OK fs.
Proof.
  intros H. unfold numeric, getitem. rewrite filter_setitem_same.
  unfold at_most_one in H.
  destruct (filter (has_label key) (data df)) as [|c [|c' l]]; try discriminate;
    cbn [map bind snd]; now rewrite floats_of_Num.
Qed.

Lemma at_most_one_coerced_frame (df : DataFrame) (K : pystr) :
  In K needed_cols -> at_most_one df K = true ->
  at_most_one (coerced_frame parse df) K = true.
Proof.
  intros HK H. destruct (completed_column df K HK H) as (c & F & _).
  unfold at_most_one, coerced_frame. cbv zeta. cbn [data].
  rewrite filter_label_map by apply coerce_labelled_fst.
  now rewrite F.
Qed.

(** A numeric field other than CTR holds its coerced values. *)
Lemma numeric_cleaned (df : DataFrame) (K : pystr) :
  In K numeric_cols -> K <> CTR -> at_most_one df K = true ->
  numeric (cleaned parse df) K = OK (field parse df K).
Proof.
  intros HK HC H. unfold cleaned. cbv zeta.
  rewrite numeric_setitem_other by now apply engagement_not_numeric.
  destruct (ctr_guard _ _ _).
  - rewrite numeric_setitem_other by assumption. now apply numeric_coerced_frame.
  - now apply numeric_coerced_frame.
Qed.

(** CTR holds what lines 88-91 decide. *)
Lemma numeric_cleaned_ctr (df : DataFrame) :
  at_most_one df CTR = true ->
  numeric (cleaned parse df) CTR = OK (ctr_values parse df).
Proof.
  intros H. unfold cleaned, ctr_values. cbv zeta.
  rewrite numeric_setitem_other by distinct.
  destruct (ctr_guard _ _ _).
  - apply numeric_setitem_same. apply at_most_one_coerced_frame; [in_list | assumption].
  - apply numeric_coerced_frame; [in_list | assumption].
Qed.

(** Every column labelled with the engagement total holds the sum line 94
    computes, and there is one. *)
Lemma engagement_cleaned (df : DataFrame) :
  In ENGAGEMENT_TOTAL (columns (cleaned parse df)) /\
  forall c, In c (data (cleaned parse df)) -> fst c = ENGAGEMENT_TOTAL ->
            snd c = map Num (engagement_values parse df).
Proof.
  unfold cleaned. cbv zeta.
  set (d3 := if ctr_guard _ _ _ then _ else _).
  set (s := map Num (engagement_values parse df)).
  pose proof (filter_setitem_same d3 ENGAGEMENT_TOTAL s) as F.
  split.
  - apply mem_In. destruct (PyStr.mem ENGAGEMENT_TOTAL (columns (setitem d3 ENGAGEMENT_TOTAL s))) eqn:M;
      [reflexivity|].
    apply mem_columns_filter in M. rewrite M in F.
    destruct (filter (has_label ENGAGEMENT_TOTAL) (data d3)); discriminate.
  - intros c Hc E.
    assert (Hin : In c (filter (has_label ENGAGEMENT_TOTAL) (data (setitem d3 ENGAGEMENT_TOTAL s))))
      by (apply filter_label_In; now split).
    rewrite F in Hin.
    destruct (filter (has_label ENGAGEMENT_TOTAL) (data d3)) as [|c0 l].
    + destruct Hin as [<-|[]]. reflexivity.
    + apply in_map_iff in Hin as (c' & <- & _). reflexivity.
Qed.

Lemma mem_columns_setitem (df : DataFrame) (key K : pystr) (s : list cell) :
  PyStr.mem K (columns df) = true -> PyStr.mem K (columns (setitem df key s)) = true.
Proof.
  intros M. destruct (PyStr.mem K (columns (setitem df key s))) eqn:M'; [reflexivity|].
  apply mem_columns_filter in M'.
  destruct (PyStr.eqb K key) eqn:E.
  - apply pystr_eqb_eq in E. subst K. rewrite filter_setitem_same in M'.
    destruct (filter (has_label key) (data df)); discriminate.
  - apply pystr_eqb_neq in E. rewrite filter_setitem_other in M' by assumption.
    apply mem_columns_filter in M'. congruence.
Qed.

Lemma columns_coerced_frame (df : DataFrame) :
  columns (coerced_frame parse df) = columns (fold_left fill_missing needed_cols df).
Proof.
  unfold coerced_frame, columns. cbv zeta. cbn [data]. rewrite map_map.
  apply map_ext. intros c. apply coerce_labelled_fst.
Qed.

(** The nine canonical fields are all there. *)
Lemma needed_cleaned (df : DataFrame) (K : pystr) :
  In K needed_cols -> In K (columns (cleaned parse df)).
Proof.
  intros HK. apply mem_In. unfold cleaned. cbv zeta.
  apply mem_columns_setitem.
  assert (M : PyStr.mem K (columns (coerced_frame parse df)) = true).
  { rewrite columns_coerced_frame.
    destruct (PyStr.mem K (columns (fold_left fill_missing needed_cols df))) eqn:M;
      [reflexivity|].
    apply mem_columns_filter in M. rewrite filter_completed in M.
    apply mem_In in HK. rewrite HK in M.
    destruct (filter (has_label K) (data df)); discriminate. }
  destruct (ctr_guard _ _ _); [now apply mem_columns_setitem | assumption].
Qed.

Lemma nrows_cleaned (df : DataFrame) : nrows (cleaned parse df) = nrows df.
Proof.
  unfold cleaned. cbv zeta. rewrite nrows_setitem.
  destruct (ctr_guard _ _ _); [rewrite nrows_setitem|];
    unfold coerced_frame; cbv zeta; cbn [nrows]; apply nrows_completed.
Qed.

(* ===================================================================== *)
(** ** Columns by position *)
(* ===================================================================== *)

Lemma nth_error_setitem (df : DataFrame) (key : pystr) (s : list cell) (i : nat) (c : column) :
  nth_error (data df) i = Some c ->
  nth_error (data (setitem df key s)) i = Some (if has_label key c then (fst c, s) else c).
Proof.
  intros H. unfold setitem. destruct (PyStr.mem key (columns df)) eqn:M; cbn [data].
  - rewrite nth_error_map, H. reflexivity.
  - rewrite nth_error_app1 by (apply nth_error_Some; congruence).
    rewrite H. f_equal.
    destruct (has_label key c) eqn:E; [|reflexivity].
    apply has_label_true in E. apply mem_not_In in M. exfalso. apply M.
    rewrite <- E. unfold columns. apply in_map. eapply nth_error_In; eassumption.
Qed.

(** The shared stage keeps every column in its place and under its label.
    It leaves the values of a column alone unless the label is a numeric
    canonical field or the engagement total. *)
Lemma nth_error_cleaned (df : DataFrame) (i : nat) (c : column) :
  nth_error (data df) i = Some c ->
  exists v, nth_error (data (cleaned parse df)) i = Some (fst c, v) /\
            (~ In (fst c) numeric_cols -> fst c <> ENGAGEMENT_TOTAL -> v = snd c).
Proof.
  intros H.
  destruct (data_completed needed_cols df) as (extra & Hd & _).
  assert (H1 : nth_error (data (coerced_frame parse df)) i
               = Some (coerce_labelled parse numeric_cols c)).
  { unfold coerced_frame. cbv zeta. cbn [data]. rewrite nth_error_map, Hd.
    rewrite nth_error_app1 by (apply nth_error_Some; congruence).
    now rewrite H. }
  set (c1 := coerce_labelled parse numeric_cols c) in *.
  assert (E1 : fst c1 = fst c) by apply coerce_labelled_fst.
  assert (V1 : ~ In (fst c) numeric_cols -> snd c1 = snd c).
  { intros Hn. unfold c1, coerce_labelled. apply mem_not_In in Hn. now rewrite Hn. }
  unfold cleaned. cbv zeta.
  set (d3 := if ctr_guard _ _ _ then _ else _).
  assert (H3 : exists c3, nth_error (data d3) i = Some c3 /\ fst c3 = fst c /\
                          (~ In (fst c) numeric_cols -> snd c3 = snd c)).
  { unfold d3. destruct (ctr_guard _ _ _).
    - rewrite (nth_error_setitem _ _ _ _ _ H1).
      eexists. split; [reflexivity|]. destruct (has_label CTR c1) eqn:E.
      + split; [exact E1|]. intros Hn. exfalso. apply Hn.
        apply has_label_true in E. rewrite <- E1, E. in_list.
      + split; [exact E1 | exact V1].
    - exists c1. split; [exact H1 | split; [exact E1 | exact V1]]. }
  destruct H3 as (c3 & H3 & E3 & V3).
  rewrite (nth_error_setitem _ _ _ _ _ H3).
  destruct (has_label ENGAGEMENT_TOTAL c3) eqn:E.
  - eexists. rewrite E3. split; [reflexivity|].
    intros _ Hne. apply has_label_true in E. congruence.
  - exists (snd c3). split.
    + rewrite <- E3. now destruct c3.
    + intros Hn _. now apply V3.
Qed.

(* ===================================================================== *)
(** ** Row counts *)
(* ===================================================================== *)

Lemma wf_frame_In (df : DataFrame) (c : column) :
  wf_frame df = true -> In c (data df) -> List.length (snd c) = nrows df.
Proof.
  unfold wf_frame. rewrite forallb_forall. intros H Hc.
  apply Nat.eqb_eq. now apply H.
Qed.

Lemma wf_relabel (f : pystr -> pystr) (df : DataFrame) :
  wf_frame (relabel f df) = wf_frame df.
Proof.
  unfold wf_frame, relabel. cbn [data nrows].
  induction (data df) as [|c l IH]; cbn [map forallb fst snd]; [reflexivity|].
  now rewrite IH.
Qed.

Lemma mapped_or_default_length (df : DataFrame) (K : pystr) :
  wf_frame df = true -> List.length (mapped_or_default df K) = nrows df.
Proof.
  intros W. unfold mapped_or_default.
  destruct (filter (has_label K) (data df)) as [|c l] eqn:F.
  - apply repeat_length.
  - apply wf_frame_In; [assumption|].
    assert (Hin : In c (filter (has_label K) (data df))) by (rewrite F; now left).
    apply filter_In in Hin. tauto.
Qed.

Lemma field_length (df : DataFrame) (K : pystr) :
  wf_frame df = true -> List.length (field parse df K) = nrows df.
Proof.
  intros W. unfold field. now rewrite coerce_series_length, mapped_or_default_length.
Qed.

Lemma wf_setitem (df : DataFrame) (key : pystr) (s : list cell) :
  wf_frame df = true -> List.length s = nrows df -> wf_frame (setitem df key s) = true.
Proof.
  intros W L. unfold wf_frame in *. rewrite forallb_forall in *.
  intros c Hc. rewrite nrows_setitem. unfold setitem in Hc.
  destruct (PyStr.mem key (columns df)); cbn [data] in Hc.
  - apply in_map_iff in Hc as (c0 & <- & H0).
    destruct (has_label key c0); [cbn [snd]; now apply Nat.eqb_eq | now apply W].
  - apply in_app_or in Hc as [Hc|[<-|[]]]; [now apply W | cbn [snd]; now apply Nat.eqb_eq].
Qed.

Lemma nrows_merged (df df_std : DataFrame) : nrows (merged parse df df_std) = nrows df_std.
Proof.
  unfold merged. destruct (_ && _); [apply nrows_setitem | reflexivity].
Qed.

Lemma wf_merged (df df_std : DataFrame) :
  wf_frame df = true -> wf_frame df_std = true -> nrows df_std = nrows df ->
  wf_frame (merged parse df df_std) = true.
Proof.
  intros W1 W2 N. unfold merged. destruct (_ && _); [|assumption].
  apply wf_setitem; [assumption|].
  rewrite length_map, series_add_length, !field_length by assumption.
  rewrite N. apply Nat.min_id.
Qed.

Lemma nrows_mapped_frame (df : DataFrame) : nrows (mapped_frame parse df) = nrows df.
Proof.
  unfold mapped_frame. destruct (is_xiaohongshu (columns df)); [reflexivity|].
  now rewrite nrows_merged.
Qed.

Lemma wf_mapped_frame (df : DataFrame) :
  wf_frame df = true -> wf_frame (mapped_frame parse df) = true.
Proof.
  intros W. unfold mapped_frame. destruct (is_xiaohongshu (columns df)).
  - unfold rename. now rewrite wf_relabel.
  - apply wf_merged; [assumption | unfold rename; now rewrite wf_relabel | reflexivity].
Qed.

(* ===================================================================== *)
(** ** Labels *)
(* ===================================================================== *)

Lemma columns_relabel (f : pystr -> pystr) (df : DataFrame) :
  columns (relabel f df) = map f (columns df).
Proof. unfold columns, relabel. cbn [data]. now rewrite !map_map. Qed.

Lemma values_relabel (f : pystr -> pystr) (df : DataFrame) :
  map snd (data (relabel f df)) = map snd (data df).
Proof. unfold relabel. cbn [data]. now rewrite map_map. Qed.

Lemma nth_error_relabel (f : pystr -> pystr) (df : DataFrame) (i : nat) (l : pystr)
      (v : list cell) :
  nth_error (data df) i = Some (l, v) ->
  nth_error (data (relabel f df)) i = Some (f l, v).
Proof.
  intros H. unfold relabel. cbn [data].
  exact (map_nth_error (fun c : column => (f (fst c), snd c)) i (data df) H).
Qed.

Lemma dict_get_absent (d : list (pystr * pystr)) (k : pystr) :
  ~ In k (map fst d) -> dict_get d k = k.
Proof.
  induction d as [|[k' v] d IH]; cbn [dict_get map fst In]; [reflexivity|].
  intros H. destruct (PyStr.eqb k' k) eqn:E.
  - apply pystr_eqb_eq in E. exfalso. apply H. now left.
  - apply IH. intros Hin. apply H. now right.
Qed.

(** The number of columns under a label depends on the labels only. *)
Lemma filter_label_length (df : DataFrame) (K : pystr) :
  List.length (filter (has_label K) (data df))
  = List.length (filter (fun l => PyStr.eqb l K) (columns df)).
Proof.
  unfold columns. induction (data df) as [|c l IH]; cbn [filter map]; [reflexivity|].
  unfold has_label at 1. destruct (PyStr.eqb (fst c) K); cbn [List.length]; now rewrite IH.
Qed.

Lemma at_most_one_labels (df df' : DataFrame) (K : pystr) :
  columns df = columns df' -> at_most_one df K = at_most_one df' K.
Proof. intros E. unfold at_most_one. now rewrite !filter_label_length, E. Qed.

Lemma normalizable_labels (df df' : DataFrame) :
  columns df = columns df' -> normalizable df = normalizable df'.
Proof.
  intros E. unfold normalizable. rewrite <- E.
  assert (Er : forall m, columns (rename m df) = columns (rename m df'))
    by (intros m; unfold rename; now rewrite !columns_relabel, E).
  destruct (is_xiaohongshu (columns df)).
  - apply forallb_pointwise. intros K. apply at_most_one_labels, Er.
  - destruct (is_channels (columns df)); [|reflexivity].
    rewrite <- Er, (at_most_one_labels df df' FORWARDED E). f_equal.
    apply forallb_pointwise. intros K. apply at_most_one_labels, Er.
Qed.

(* ===================================================================== *)
(** ** From the stripped frame to the returned one, column by column *)
(* ===================================================================== *)

Lemma nth_error_merged (df df_std : DataFrame) (i : nat) (c : column) :
  nth_error (data df_std) i = Some c ->
  exists v, nth_error (data (merged parse df df_std)) i = Some (fst c, v) /\
            (fst c <> SHARES -> v = snd c).
Proof.
  intros H. unfold merged. destruct (_ && _).
  - rewrite (nth_error_setitem _ _ _ _ _ H). destruct (has_label SHARES c) eqn:E.
    + eexists. split; [reflexivity|]. apply has_label_true in E. congruence.
    + exists (snd c). split; [now destruct c | reflexivity].
  - exists (snd c). split; [now destruct c | reflexivity].
Qed.

(** The rename table of a platform. *)
Lemma nth_error_mapped_frame (df : DataFrame) (i : nat) (l : pystr) (v : list cell) :
  nth_error (data df) i = Some (l, v) ->
  let table := if is_xiaohongshu (columns df) then rename_map_xhs else rename_map_channels in
  exists v', nth_error (data (mapped_frame parse df)) i = Some (dict_get table l, v') /\
             (dict_get table l <> SHARES -> v' = v).
Proof.
  intros H. cbv zeta. unfold mapped_frame. destruct (is_xiaohongshu (columns df)).
  - exists v. split; [|reflexivity]. unfold rename. now apply nth_error_relabel.
  - apply (nth_error_merged df _ i (dict_get rename_map_channels l, v)).
    unfold rename. now apply nth_error_relabel.
Qed.

Lemma shares_numeric : In SHARES numeric_cols.
Proof. in_list. Qed.

Lemma nth_error_normalized (df : DataFrame) (i : nat) (l : pystr) (v : list cell) :
  nth_error (data df) i = Some (l, v) ->
  let table := if is_xiaohongshu (columns df) then rename_map_xhs else rename_map_channels in
  exists v', nth_error (data (cleaned parse (mapped_frame parse df))) i
             = Some (dict_get table l, v') /\
             (~ In (dict_get table l) numeric_cols ->
              dict_get table l <> ENGAGEMENT_TOTAL -> v' = v).
Proof.
  intros H. cbv zeta.
  destruct (nth_error_mapped_frame df i l v H) as (v1 & H1 & E1). cbv zeta in H1, E1.
  destruct (nth_error_cleaned _ i _ H1) as (v2 & H2 & E2). cbn [fst snd] in H2, E2.
  exists v2. split; [exact H2|].
  intros Hn He. rewrite (E2 Hn He). apply E1.
  intros Hs. apply Hn. rewrite Hs. apply shares_numeric.
Qed.

(* ===================================================================== *)
(** ** Fields that the mapped frame lacks, and the merged shares *)
(* ===================================================================== *)

Lemma engagement_not_needed (K : pystr) : In K needed_cols -> K <> ENGAGEMENT_TOTAL.
Proof.
  cbv [needed_cols In].
  intros [<-|[<-|[<-|[<-|[<-|[<-|[<-|[<-|[<-|[]]]]]]]]]]; distinct.
Qed.

Lemma coerce_cells_zeros (n : nat) :
  coerce_cells parse (repeat (Num 0%float) n) = repeat (Num 0%float) n.
Proof. unfold coerce_cells. now rewrite coerce_series_zeros, map_repeat. Qed.

Lemma field_absent (df : DataFrame) (K : pystr) :
  ~ In K (columns df) -> field parse df K = repeat 0%float (nrows df).
Proof.
  intros H. unfold field, mapped_or_default.
  apply mem_not_In, mem_columns_filter in H. rewrite H. apply coerce_series_zeros.
Qed.

(** Without an impressions column, or without a views column, the test of
    line 88 fails. *)
Lemma ctr_guard_absent (df : DataFrame) :
  ~ In IMPRESSIONS (columns df) \/ ~ In VIEWS (columns df) ->
  ctr_guard (field parse df CTR) (field parse df IMPRESSIONS) (field parse df VIEWS) = false.
Proof.
  unfold ctr_guard. intros [H|H]; rewrite (field_absent _ _ H), series_sum_zeros.
  - destruct (PrimFloat.eqb _ _); reflexivity.
  - destruct (PrimFloat.eqb _ _); [|reflexivity].
    destruct (PrimFloat.ltb _ _); reflexivity.
Qed.

Lemma getitem_cleaned_absent (df : DataFrame) (K : pystr) :
  In K needed_cols -> ~ In K (columns df) ->
  K <> CTR \/
  ctr_guard (field parse df CTR) (field parse df IMPRESSIONS) (field parse df VIEWS) = false ->
  getitem (cleaned parse df) K = OK (Series (repeat (Num 0%float) (nrows df))).
Proof.
  intros HK Habs Hc.
  assert (F2 : filter (has_label K) (data (coerced_frame parse df))
               = [(K, repeat (Num 0%float) (nrows df))]).
  { unfold coerced_frame. cbv zeta. cbn [data].
    rewrite filter_label_map by apply coerce_labelled_fst.
    rewrite filter_completed.
    pose proof HK as M. apply mem_In in M. rewrite M.
    apply mem_not_In, mem_columns_filter in Habs. rewrite Habs. cbn [map].
    unfold coerce_labelled. cbn [fst snd].
    destruct (PyStr.mem K numeric_cols); [now rewrite coerce_cells_zeros | reflexivity]. }
  unfold getitem, cleaned. cbv zeta.
  rewrite filter_setitem_other by now apply engagement_not_needed.
  destruct (ctr_guard _ _ _).
  - destruct Hc as [Hc|Hc]; [|discriminate].
    rewrite filter_setitem_other by assumption. now rewrite F2.
  - now rewrite F2.
Qed.

Lemma mapped_or_default_setitem (df : DataFrame) (key : pystr) (s : list cell) :
  mapped_or_default (setitem df key s) key = s.
Proof.
  unfold mapped_or_default. rewrite filter_setitem_same.
  destruct (filter (has_label key) (data df)); reflexivity.
Qed.

Lemma mapped_or_default_Series (df : DataFrame) (key : pystr) (s : list cell) :
  getitem df key = OK (Series s) ->
  mapped_or_default df key = s /\ PyStr.mem key (columns df) = true.
Proof.
  intros H. apply getitem_Series_inv in H as (c & F & <-).
  unfold mapped_or_default. rewrite F. split; [reflexivity|].
  destruct (PyStr.mem key (columns df)) eqn:M; [reflexivity|].
  apply mem_columns_filter in M. congruence.
Qed.

(** What a return on a known platform gives to work with. *)
Lemma known_platform_frame (df out : DataFrame) (p : platform) (fields : list pystr) :
  snd (standardize_data parse df) = OK (out, p, fields) -> p <> Unknown ->
  let m := mapped_frame parse (relabel PyStr.strip df) in
  out = cleaned parse m /\
  (forall K, In K numeric_cols -> at_most_one m K = true) /\
  nrows m = nrows df /\
  (wf_frame df = true -> wf_frame m = true).
Proof.
  intros H Hp. cbv zeta.
  change (snd (standardize_data parse df))
    with (standardize_stripped parse (relabel PyStr.strip df)) in H.
  apply standardize_OK_inv in H as [N E].
  set (S := relabel PyStr.strip df) in *.
  assert (Hout : out = cleaned parse (mapped_frame parse S)).
  { unfold normalized in E. destruct (is_xiaohongshu (columns S)).
    - now injection E as -> _ _.
    - destruct (is_channels (columns S)).
      + now injection E as -> _ _.
      + injection E as _ -> _. contradiction. }
  assert (Hk : is_xiaohongshu (columns S) = false -> is_channels (columns S) = true).
  { intros HA. unfold normalized in E. rewrite HA in E.
    destruct (is_channels (columns S)); [reflexivity|].
    injection E as _ -> _. contradiction. }
  repeat split.
  - exact Hout.
  - intros K HK. unfold normalizable in N. unfold mapped_frame.
    destruct (is_xiaohongshu (columns S)).
    + rewrite forallb_forall in N. now apply N.
    + rewrite (Hk eq_refl) in N. apply andb_prop in N as [N _].
      rewrite at_most_one_merged. rewrite forallb_forall in N. now apply N.
  - now rewrite nrows_mapped_frame.
  - intros W. apply wf_mapped_frame. unfold S. now rewrite wf_relabel.
Qed.

(* ===================================================================== *)
(** ** [standardize_data]: what a return tells *)
(* ===================================================================== *)

Lemma standardize_data_fst (df : DataFrame) :
  fst (standardize_data parse df) = relabel PyStr.strip df.
Proof. reflexivity. Qed.

Lemma standardize_data_snd (df : DataFrame) :
  snd (standardize_data parse df) = standardize_stripped parse (relabel PyStr.strip df).
Proof. reflexivity. Qed.

Lemma known_platform_inv (df out : DataFrame) (p : platform) (fields : list pystr) :
  snd (standardize_data parse df) = OK (out, p, fields) -> p <> Unknown ->
  let S := relabel PyStr.strip df in
  normalizable S = true /\
  out = cleaned parse (mapped_frame parse S) /\
  fields = needed_cols /\
  rename_map_of p = (if is_xiaohongshu (columns S) then rename_map_xhs else rename_map_channels) /\
  (p = Channels -> is_xiaohongshu (columns S) = false /\ is_channels (columns S) = true).
Proof.
  rewrite standardize_data_snd. intros H Hp. cbv zeta.
  apply standardize_OK_inv in H as [N E]. split; [exact N|].
  unfold normalized in E.
  destruct (is_xiaohongshu (columns (relabel PyStr.strip df))).
  - injection E as -> -> ->.
    split; [reflexivity|]. split; [reflexivity|]. split; [reflexivity|].
    intros X. discriminate X.
  - destruct (is_channels (columns (relabel PyStr.strip df))).
    + injection E as -> -> ->.
      split; [reflexivity|]. split; [reflexivity|]. split; [reflexivity|].
      intros _. split; reflexivity.
    + injection E as _ -> _. contradiction.
Qed.

Lemma existsb_same_elements {A : Type} (f : A -> bool) (l l' : list A) :
  (forall x, In x l <-> In x l') -> existsb f l = existsb f l'.
Proof.
  intros H. destruct (existsb f l') eqn:E.
  - apply existsb_exists in E as (x & Hx & Hf). apply existsb_exists.
    exists x. split; [now apply H | assumption].
  - destruct (existsb f l) eqn:E'; [|reflexivity].
    apply existsb_exists in E' as (x & Hx & Hf).
    assert (E2 : existsb f l' = true)
      by (apply existsb_exists; exists x; split; [now apply H | assumption]).
    congruence.
Qed.

(* ===================================================================== *)
(** ** The claims *)
(* ===================================================================== *)

(** [p in s] finds exactly the places where [s] is [before + p + after]. *)
Lemma startswith_spec (p s : pystr) :
  PyStr.startswith p s = true <-> exists after, s = p ++ after.
Proof.
  revert s. induction p as [|x p IH]; intros s; cbn [PyStr.startswith app].
  - split; [intros _; now exists s | reflexivity].
  - destruct s as [|y s].
    + split; [discriminate | intros (after & E); discriminate E].
    + rewrite andb_true_iff, N.eqb_eq, IH. split.
      * intros (-> & after & ->). now exists after.
      * intros (after & E). injection E as -> ->. split; [reflexivity | now exists after].
Qed.

Lemma contains_spec (needle hay : pystr) :
  PyStr.contains needle hay = true <-> exists before after, hay = before ++ needle ++ after.
Proof.
  induction hay as [|a hay IH].
  - cbn [PyStr.contains]. rewrite orb_false_r, startswith_spec. split.
    + intros (after & E). now exists [], after.
    + intros (before & after & E). destruct before as [|b before]; [now exists after|].
      discriminate E.
  - cbn [PyStr.contains]. rewrite orb_true_iff, startswith_spec, IH. split.
    + intros [(after & E)|(before & after & E)].
      * now exists [], after.
      * exists (a :: before), after. cbn [app]. now rewrite E.
    + intros (before & after & E). destruct before as [|b before].
      * left. now exists after.
      * right. cbn [app] in E. injection E as _ E. now exists before, after.
Qed.

(** The tests of lines 23 and 39 decide the two signatures. *)
Lemma is_xiaohongshu_spec (names : list pystr) :
  is_xiaohongshu names = true <-> has_note_title names.
Proof.
  unfold is_xiaohongshu, has_note_title. rewrite existsb_exists. split.
  - intros (name & Hin & Hc). apply contains_spec in Hc as (before & after & E).
    now exists name, before, after.
  - intros (name & before & after & Hin & E). exists name. split; [exact Hin|].
    apply contains_spec. now exists before, after.
Qed.

Lemma is_channels_spec (names : list pystr) :
  is_channels names = true <-> has_description names.
Proof.
  unfold is_channels, has_description. cbn [existsb].
  rewrite orb_false_r, !orb_true_iff, !mem_In. tauto.
Qed.

Lemma is_xiaohongshu_not (names : list pystr) :
  is_xiaohongshu names = false <-> ~ has_note_title names.
Proof.
  rewrite <- is_xiaohongshu_spec. destruct (is_xiaohongshu names); split; congruence.
Qed.

Lemma is_channels_not (names : list pystr) :
  is_channels names = false <-> ~ has_description names.
Proof.
  rewrite <- is_channels_spec. destruct (is_channels names); split; congruence.
Qed.

(** The label of a return is the one the signatures call for. *)
Lemma returned_label (df out : DataFrame) (p : platform) (fields : list pystr) :
  snd (standardize_data parse df) = OK (out, p, fields) ->
  let names := map PyStr.strip (columns df) in
  p = (if is_xiaohongshu names then Xiaohongshu
       else if is_channels names then Channels else Unknown).
Proof.
  intros H. cbv zeta. rewrite standardize_data_snd in H.
  apply standardize_OK_inv in H as [_ E]. unfold normalized in E.
  assert (EC : columns (relabel PyStr.strip df) = map PyStr.strip (columns df))
    by apply columns_relabel.
  rewrite <- EC.
  destruct (is_xiaohongshu (columns (relabel PyStr.strip df))).
  - injection E as _ -> _. reflexivity.
  - destruct (is_channels (columns (relabel PyStr.strip df)));
      injection E as _ -> _; reflexivity.
Qed.

(** C1. With [names] the stripped column names: a name containing the
    note-title text makes every return Xiaohongshu, also when a description
    name is there too; a description name alone makes every return
    Channels; neither gives Unknown. The label a call returns depends on the
    set of stripped names only. But the call does not return for every such
    header: it returns exactly when the labels are [normalizable] and raises
    otherwise, as on a header with both signatures and the views twice. *)
Theorem C1_detection_order (df : DataFrame) :
  let S := relabel PyStr.strip df in
  let names := map PyStr.strip (columns df) in
  (has_note_title names ->
     (forall out p fields,
        snd (standardize_data parse df) = OK (out, p, fields) -> p = Xiaohongshu) /\
     (normalizable S = true <->
      exists out, snd (standardize_data parse df) = OK (out, Xiaohongshu, needed_cols)))
  /\ (~ has_note_title names -> has_description names ->
     (forall out p fields,
        snd (standardize_data parse df) = OK (out, p, fields) -> p = Channels) /\
     (normalizable S = true <->
      exists out, snd (standardize_data parse df) = OK (out, Channels, needed_cols)))
  /\ (~ has_note_title names -> ~ has_description names ->
      snd (standardize_data parse df) = OK (S, Unknown, []))
  /\ (normalizable S = false -> exists e, snd (standardize_data parse df) = Raise e)
  /\ (forall df' out p fields out' p' fields',
        (forall x, In x names <-> In x (map PyStr.strip (columns df'))) ->
        snd (standardize_data parse df) = OK (out, p, fields) ->
        snd (standardize_data parse df') = OK (out', p', fields') ->
        p = p')
  /\ snd (standardize_data parse both_signatures_doubled) = Raise TypeError
  /\ (exists out, snd (standardize_data parse plays_once) = OK (out, Channels, needed_cols))
  /\ snd (standardize_data parse plays_twice) = Raise TypeError.
Proof.
  cbv zeta.
  set (S := relabel PyStr.strip df).
  assert (EC : columns S = map PyStr.strip (columns df)) by apply columns_relabel.
  assert (RET : normalizable S = true ->
                snd (standardize_data parse df) = OK (normalized parse S)).
  { intros N. rewrite standardize_data_snd. apply standardize_returns. exact N. }
  assert (INV : forall r, snd (standardize_data parse df) = OK r -> normalizable S = true).
  { intros r H. rewrite standardize_data_snd in H.
    apply standardize_OK_inv in H. tauto. }
  split; [|split; [|split; [|split; [|split; [|split; [|split]]]]]].
  - intros HA. apply is_xiaohongshu_spec in HA. split.
    + intros out p fields H. apply returned_label in H. cbv zeta in H.
      rewrite HA in H. exact H.
    + split.
      * intros N. rewrite (RET N). unfold normalized. rewrite EC, HA.
        eexists. reflexivity.
      * intros (out & H). exact (INV _ H).
  - intros HA HB. apply is_xiaohongshu_not in HA. apply is_channels_spec in HB. split.
    + intros out p fields H. apply returned_label in H. cbv zeta in H.
      rewrite HA, HB in H. exact H.
    + split.
      * intros N. rewrite (RET N). unfold normalized. rewrite EC, HA, HB.
        eexists. reflexivity.
      * intros (out & H). exact (INV _ H).
  - intros HA HB. apply is_xiaohongshu_not in HA. apply is_channels_not in HB.
    rewrite standardize_data_snd. unfold standardize_stripped. cbv zeta.
    fold S. rewrite EC, HA, HB. reflexivity.
  - intros N. rewrite standardize_data_snd. apply standardize_raises. exact N.
  - intros df' out p fields out' p' fields' Hset H H'.
    apply returned_label in H. apply returned_label in H'. cbv zeta in H, H'.
    assert (EA : is_xiaohongshu (map PyStr.strip (columns df'))
                 = is_xiaohongshu (map PyStr.strip (columns df))).
    { unfold is_xiaohongshu. apply existsb_same_elements. intros x. symmetry. apply Hset. }
    assert (EB : is_channels (map PyStr.strip (columns df'))
                 = is_channels (map PyStr.strip (columns df))).
    { unfold is_channels.
      assert (M : forall x, PyStr.mem x (map PyStr.strip (columns df'))
                            = PyStr.mem x (map PyStr.strip (columns df))).
      { intros x. unfold PyStr.mem. apply existsb_same_elements. intros y.
        symmetry. apply Hset. }
      cbn [existsb]. rewrite !M. reflexivity. }
    rewrite EA, EB in H'. rewrite H, H'. reflexivity.
  - vm_compute. reflexivity.
  - eexists. vm_compute. reflexivity.
  - vm_compute. reflexivity.
Qed.

(** C6 (amended). When the stripped header has neither signature,
    [standardize_data] returns Unknown, an empty field list and the
    caller's own frame, whose labels line 19 has stripped in place: the
    values, their order and the row count are as they were, and nothing is
    mapped, completed, coerced or derived. *)
Theorem C6_unknown_passes_through (df : DataFrame) :
  is_xiaohongshu (map PyStr.strip (columns df)) = false ->
  is_channels (map PyStr.strip (columns df)) = false ->
  let S := relabel PyStr.strip df in
  standardize_data parse df = (S, OK (S, Unknown, [])) /\
  columns S = map PyStr.strip (columns df) /\
  map snd (data S) = map snd (data df) /\
  nrows S = nrows df.
Proof.
  intros HA HB. cbv zeta.
  assert (HA' : is_xiaohongshu (columns (relabel PyStr.strip df)) = false)
    by (rewrite columns_relabel; exact HA).
  assert (HB' : is_channels (columns (relabel PyStr.strip df)) = false)
    by (rewrite columns_relabel; exact HB).
  split; [|split; [|split]].
  - unfold standardize_data. cbv zeta. f_equal.
    unfold standardize_stripped. cbv zeta.
    rewrite HA', HB'. reflexivity.
  - apply columns_relabel.
  - apply values_relabel.
  - reflexivity.
Qed.

(** C9. The call returns exactly when the stripped labels are
    [normalizable]; on a frame with two synonyms of the views it raises
    [TypeError] at line 85. *)
Theorem C9_raises_on_synonyms :
  snd (standardize_data parse views_synonyms) = Raise TypeError /\
  forall df,
    (exists r, snd (standardize_data parse df) = OK r)
    <-> normalizable (relabel PyStr.strip df) = true.
Proof.
  split; [vm_compute; reflexivity|].
  intros df. rewrite standardize_data_snd. split.
  - intros (r & H). now apply standardize_OK_inv in H.
  - intros N. rewrite (standardize_returns _ N). eexists. reflexivity.
Qed.

(** C10. On a known platform the returned frame has the nine canonical
    fields among its labels, and it keeps every source column whose
    stripped label is not a key of the platform's table: in its place,
    under its stripped label, and with its values untouched unless that
    label is a numeric canonical field or the engagement total. *)
Theorem C10_other_columns_kept (df out : DataFrame) (p : platform) (fields : list pystr) :
  snd (standardize_data parse df) = OK (out, p, fields) -> p <> Unknown ->
  (forall K, In K needed_cols -> In K (columns out)) /\
  (forall i l v,
     nth_error (data df) i = Some (l, v) ->
     ~ In (PyStr.strip l) (map fst (rename_map_of p)) ->
     exists v', nth_error (data out) i = Some (PyStr.strip l, v') /\
                (~ In (PyStr.strip l) numeric_cols ->
                 PyStr.strip l <> ENGAGEMENT_TOTAL -> v' = v)).
Proof.
  intros H Hp. destruct (known_platform_inv _ _ _ _ H Hp) as (_ & -> & _ & T & _).
  split.
  - intros K HK. now apply needed_cleaned.
  - intros i l v Hi Hn.
    pose proof (nth_error_relabel PyStr.strip df i l v Hi) as Hs.
    destruct (nth_error_normalized _ _ _ _ Hs) as (v' & Hv & Ev). cbv zeta in Hv, Ev.
    rewrite <- T in Hv, Ev. rewrite (dict_get_absent _ _ Hn) in Hv, Ev.
    now exists v'.
Qed.


(** C3. On a known platform each of likes, comments, favorites and
    shares is one numeric column with a value for every row, the returned
    frame has a column labelled with the engagement total, and every column
    so labelled (one the source brought included) holds, row by row, likes
    + comments + favorites + shares as line 94 adds them. *)
Theorem C3_engagement_total (df out : DataFrame) (p : platform) (fields : list pystr) :
  wf_frame df = true ->
  snd (standardize_data parse df) = OK (out, p, fields) -> p <> Unknown ->
  exists likes comments favorites shares,
    numeric out LIKES = OK likes /\ numeric out COMMENTS = OK comments /\
    numeric out FAVORITES = OK favorites /\ numeric out SHARES = OK shares /\
    List.length likes = nrows df /\ List.length comments = nrows df /\
    List.length favorites = nrows df /\ List.length shares = nrows df /\
    In ENGAGEMENT_TOTAL (columns out) /\
    forall c, In c (data out) -> fst c = ENGAGEMENT_TOTAL ->
      List.length (snd c) = nrows df /\
      forall i l k f s,
        nth_error likes i = Some l -> nth_error comments i = Some k ->
        nth_error favorites i = Some f -> nth_error shares i = Some s ->
        nth_error (snd c) i
        = Some (Num (PrimFloat.add (PrimFloat.add (PrimFloat.add l k) f) s)).
Proof.
  intros W H Hp.
  destruct (known_platform_frame _ _ _ _ H Hp) as (-> & U & N & Wm).
  specialize (Wm W). set (m := mapped_frame parse (relabel PyStr.strip df)) in *.
  exists (field parse m LIKES), (field parse m COMMENTS),
         (field parse m FAVORITES), (field parse m SHARES).
  rewrite !numeric_cleaned by (try distinct; try apply U; in_list).
  rewrite !field_length by assumption.
  destruct (engagement_cleaned m) as [Hin Hall].
  repeat split; try assumption.
  - rewrite (Hall c H0 H1), length_map. unfold engagement_values.
    rewrite !series_add_length, !field_length by assumption.
    rewrite !Nat.min_id. exact N.
  - intros i l k f s Hl Hk Hf Hs. rewrite (Hall c H0 H1), nth_error_map.
    unfold engagement_values.
    rewrite (series_add_nth _ _ _ _ _
               (series_add_nth _ _ _ _ _ (series_add_nth _ _ _ _ _ Hl Hk) Hf) Hs).
    reflexivity.
Qed.

(** C2. On a known platform, with [ctr], [imp] and [views] the three
    fields as line 85 leaves them: the CTR column is rewritten exactly when
    sum(ctr) == 0, sum(imp) > 0, sum(views) > 0 and sum(imp) > sum(views),
    and otherwise it is [ctr] unchanged. When it is rewritten, line 91
    gives every row its own views / impressions. The source has no test on
    the row's impressions there: a row whose impressions are 0 gets the
    IEEE quotient (an infinity or a blank) and does not keep 0, against the
    claim and against the purpose the comment of line 89 states. *)
Theorem C2_ctr_fallback (df out : DataFrame) (p : platform) (fields : list pystr) :
  wf_frame df = true ->
  snd (standardize_data parse df) = OK (out, p, fields) -> p <> Unknown ->
  let m := mapped_frame parse (relabel PyStr.strip df) in
  let ctr := field parse m CTR in
  let imp := field parse m IMPRESSIONS in
  let views := field parse m VIEWS in
  let guard := PrimFloat.eqb (series_sum ctr) 0%float
               && PrimFloat.ltb 0%float (series_sum imp)
               && PrimFloat.ltb 0%float (series_sum views)
               && PrimFloat.ltb (series_sum views) (series_sum imp) in
  numeric out IMPRESSIONS = OK imp /\ numeric out VIEWS = OK views /\
  List.length ctr = nrows df /\ List.length imp = nrows df /\
  List.length views = nrows df /\
  (guard = false -> numeric out CTR = OK ctr) /\
  (guard = true ->
   exists rewritten,
     numeric out CTR = OK rewritten /\ List.length rewritten = nrows df /\
     forall i v x,
       nth_error views i = Some v -> nth_error imp i = Some x ->
       nth_error rewritten i = Some (PrimFloat.div v x)).
Proof.
  intros W H Hp. cbv zeta.
  destruct (known_platform_frame _ _ _ _ H Hp) as (-> & U & N & Wm).
  specialize (Wm W). set (m := mapped_frame parse (relabel PyStr.strip df)) in *.
  rewrite !numeric_cleaned by (try distinct; try apply U; in_list).
  rewrite numeric_cleaned_ctr by (apply U; in_list).
  rewrite !field_length by assumption.
  unfold ctr_values.
  change (PrimFloat.eqb (series_sum (field parse m CTR)) 0
          && PrimFloat.ltb 0 (series_sum (field parse m IMPRESSIONS))
          && PrimFloat.ltb 0 (series_sum (field parse m VIEWS))
          && PrimFloat.ltb (series_sum (field parse m VIEWS))
               (series_sum (field parse m IMPRESSIONS)))
    with (ctr_guard (field parse m CTR) (field parse m IMPRESSIONS) (field parse m VIEWS)).
  repeat split; try assumption.
  - intros G. now rewrite G.
  - intros G. rewrite G. eexists. split; [reflexivity|]. split.
    + rewrite series_div_length, !field_length by assumption.
      rewrite Nat.min_id. exact N.
    + intros i v x Hv Hx. now apply series_div_nth.
Qed.

(** C4 (amended). On a known platform the field list is the nine
    canonical names and all nine label a column of the returned frame. A
    field the mapped frame lacks is a column of the number 0 in every row:
    so for the title too, which gets 0 and not the empty text, and for CTR
    unless lines 88-91 rewrite it, which they do not when impressions or
    views are lacking as well. *)
Theorem C4_missing_fields_zero (df out : DataFrame) (p : platform) (fields : list pystr) :
  snd (standardize_data parse df) = OK (out, p, fields) -> p <> Unknown ->
  let m := mapped_frame parse (relabel PyStr.strip df) in
  fields = needed_cols /\
  (forall K, In K needed_cols -> In K (columns out)) /\
  (forall K, In K needed_cols -> ~ In K (columns m) -> K <> CTR ->
     getitem out K = OK (Series (repeat (Num 0%float) (nrows df)))) /\
  (~ In CTR (columns m) -> ~ In IMPRESSIONS (columns m) \/ ~ In VIEWS (columns m) ->
     getitem out CTR = OK (Series (repeat (Num 0%float) (nrows df)))).
Proof.
  intros H Hp. cbv zeta.
  destruct (known_platform_inv _ _ _ _ H Hp) as (_ & _ & -> & _).
  destruct (known_platform_frame _ _ _ _ H Hp) as (-> & _ & N & _).
  set (m := mapped_frame parse (relabel PyStr.strip df)) in *.
  rewrite <- N. repeat split.
  - intros K HK. now apply needed_cleaned.
  - intros K HK Habs HC. apply getitem_cleaned_absent; auto.
  - intros Habs Hiv. apply getitem_cleaned_absent; [in_list | assumption|].
    right. now apply ctr_guard_absent.
Qed.

(** C5 (amended). On the second platform, when one column is mapped to
    the shares and one column is the forwarded one, the shares of each row
    are the sum of the two values, each coerced on its own with a blank or
    an unreadable text as 0; a sum that is not a number (plus infinity and
    minus infinity) is then replaced by 0 by line 85. *)
Theorem C5_shares_merged (df out : DataFrame) (fields : list pystr) (a b : list cell) :
  wf_frame df = true ->
  snd (standardize_data parse df) = OK (out, Channels, fields) ->
  let S := relabel PyStr.strip df in
  getitem (rename rename_map_channels S) SHARES = OK (Series a) ->
  getitem S FORWARDED = OK (Series b) ->
  numeric out SHARES
  = OK (fillna0 (series_add (coerce_series parse a) (coerce_series parse b))) /\
  List.length a = nrows df /\ List.length b = nrows df /\
  forall i x y,
    nth_error (coerce_series parse a) i = Some x ->
    nth_error (coerce_series parse b) i = Some y ->
    exists s, numeric out SHARES = OK s /\
              nth_error s i = Some (if is_nan (PrimFloat.add x y) then 0%float
                                    else PrimFloat.add x y).
Proof.
  intros W H. cbv zeta. intros Ha Hb.
  assert (Hp : Channels <> Unknown) by discriminate.
  destruct (known_platform_inv _ _ _ _ H Hp) as (_ & _ & _ & _ & HC).
  destruct (HC eq_refl) as [HA _].
  destruct (known_platform_frame _ _ _ _ H Hp) as (-> & U & N & _).
  set (S := relabel PyStr.strip df) in *.
  apply mapped_or_default_Series in Ha as [Ea Ma].
  apply mapped_or_default_Series in Hb as [Eb Mb].
  assert (WS : wf_frame S = true) by (unfold S; now rewrite wf_relabel).
  assert (WR : wf_frame (rename rename_map_channels S) = true)
    by (unfold rename; now rewrite wf_relabel).
  assert (E : field parse (mapped_frame parse S) SHARES
              = fillna0 (series_add (coerce_series parse a) (coerce_series parse b))).
  { unfold mapped_frame. rewrite HA. unfold merged. rewrite Mb, Ma. cbn [andb].
    unfold field at 1. rewrite mapped_or_default_setitem, coerce_series_Num.
    unfold field. now rewrite Ea, Eb. }
  rewrite numeric_cleaned by (try distinct; try apply U; in_list).
  rewrite E. repeat split.
  - rewrite <- Ea, mapped_or_default_length by assumption. reflexivity.
  - rewrite <- Eb, mapped_or_default_length by assumption. reflexivity.
  - intros i x y Hx Hy. eexists. split; [reflexivity|].
    unfold fillna0. rewrite nth_error_map, (series_add_nth _ _ _ _ _ Hx Hy). reflexivity.
Qed.

(** C7 (amended). On a known platform no row is dropped, and the loop of
    lines 84-85 returns a frame in which each of the eight numeric fields
    is one column with a number in every row, never a blank and never a
    text: a text that holds no number and a blank have become 0 in their
    cell, every other number, negative and infinite ones too, stands as it
    was. The returned frame holds these very values in the seven fields
    other than CTR, and in CTR when the test of lines 88-90 fails; what
    line 91 writes is left to C2. Whether the call returns does not depend
    on any cell: it returns on every frame with the same labels. *)
Theorem C7_coerced_numbers (df out : DataFrame) (p : platform) (fields : list pystr) :
  wf_frame df = true ->
  snd (standardize_data parse df) = OK (out, p, fields) -> p <> Unknown ->
  let m := mapped_frame parse (relabel PyStr.strip df) in
  let d1 := fold_left fill_missing needed_cols m in
  exists d2,
    for_each (tl needed_cols) (coerce_column parse) d1 = OK d2 /\
    nrows d2 = nrows df /\
    nrows out = nrows df /\
    (forall K, In K numeric_cols ->
       exists src fs,
         getitem d1 K = OK (Series src) /\
         numeric d2 K = OK fs /\
         List.length fs = nrows df /\
         Forall not_nan fs /\
         (forall i t, nth_error src i = Some (Str t) -> parse t = None ->
                      nth_error fs i = Some 0%float) /\
         (forall i f, nth_error src i = Some (Num f) ->
                      nth_error fs i = Some (if is_nan f then 0%float else f)) /\
         (K <> CTR -> numeric out K = OK fs)) /\
    (forall ctr imp views,
       numeric d2 CTR = OK ctr -> numeric d2 IMPRESSIONS = OK imp ->
       numeric d2 VIEWS = OK views ->
       ctr_guard ctr imp views = false -> numeric out CTR = OK ctr) /\
    (forall df', columns df' = columns df ->
                 exists r, snd (standardize_data parse df') = OK r).
Proof.
  intros W H Hp. cbv zeta.
  destruct (known_platform_frame _ _ _ _ H Hp) as (E & U & N & Wm).
  specialize (Wm W). set (m := mapped_frame parse (relabel PyStr.strip df)) in *.
  assert (UA : forallb (at_most_one m) numeric_cols = true)
    by (apply forallb_forall; exact U).
  exists (coerced_frame parse m).
  split; [|split; [|split; [|split; [|split]]]].
  - unfold coerced_frame. cbv zeta. apply coerce_loop_OK.
    rewrite singles_completed. exact UA.
  - unfold coerced_frame. cbv zeta. cbn [nrows]. rewrite nrows_completed. exact N.
  - rewrite E, nrows_cleaned. exact N.
  - intros K HK.
    destruct (completed_column m K (numeric_in_needed _ HK) (U K HK)) as (c & F & Ec).
    exists (snd c), (field parse m K).
    split; [exact (getitem_unique _ _ _ F)|].
    split; [exact (numeric_coerced_frame m K HK (U K HK))|].
    split; [rewrite field_length by assumption; exact N|].
    split; [apply coerce_series_not_nan|].
    unfold field. rewrite <- Ec.
    split; [intros i t Hi Ht; exact (coerce_series_unparseable _ _ _ Hi Ht)|].
    split.
    + intros i f Hi. unfold coerce_series, fillna0.
      rewrite !nth_error_map, Hi. reflexivity.
    + intros HC. rewrite E, Ec. apply numeric_cleaned; auto.
  - intros ctr imp views Hc Hi Hv G.
    rewrite numeric_coerced_frame in Hc, Hi, Hv by (try apply U; in_list).
    injection Hc as <-. injection Hi as <-. injection Hv as <-.
    rewrite E, numeric_cleaned_ctr by (apply U; in_list).
    unfold ctr_values. rewrite G. reflexivity.
  - intros df' Hc. rewrite standardize_data_snd.
    rewrite standardize_data_snd in H. apply standardize_OK_inv in H as [Hn _].
    rewrite standardize_returns; [eexists; reflexivity|].
    rewrite <- Hn. apply normalizable_labels.
    rewrite !columns_relabel, Hc. reflexivity.
Qed.

(* ===================================================================== *)
(** ** Stripping twice *)
(* ===================================================================== *)

Lemma lstrip_app_nonspace (l : pystr) (c : N) :
  PyStr.isspace c = false -> PyStr.lstrip (l ++ [c]) = PyStr.lstrip l ++ [c].
Proof.
  intros Hc. induction l as [|a l IH]; cbn [PyStr.lstrip app].
  - now rewrite Hc.
  - destruct (PyStr.isspace a); [exact IH | reflexivity].
Qed.

Lemma lstrip_idem (s : pystr) : PyStr.lstrip (PyStr.lstrip s) = PyStr.lstrip s.
Proof.
  induction s as [|a s IH]; cbn [PyStr.lstrip]; [reflexivity|].
  destruct (PyStr.isspace a) eqn:E; [exact IH|].
  cbn [PyStr.lstrip]. now rewrite E.
Qed.

Lemma lstrip_head (s : pystr) :
  PyStr.lstrip s = [] \/
  exists c r, PyStr.lstrip s = c :: r /\ PyStr.isspace c = false.
Proof.
  induction s as [|a s IH]; cbn [PyStr.lstrip]; [now left|].
  destruct (PyStr.isspace a) eqn:E; [exact IH|].
  right. exists a, s. now split.
Qed.

Lemma rstrip_cons_nonspace (c : N) (r : pystr) :
  PyStr.isspace c = false -> PyStr.rstrip (c :: r) = c :: PyStr.rstrip r.
Proof.
  intros Hc. unfold PyStr.rstrip. cbn [rev].
  rewrite (lstrip_app_nonspace _ _ Hc), rev_app_distr. reflexivity.
Qed.

Lemma rstrip_idem (s : pystr) : PyStr.rstrip (PyStr.rstrip s) = PyStr.rstrip s.
Proof. unfold PyStr.rstrip. now rewrite rev_involutive, lstrip_idem. Qed.

(** [s.strip().strip() == s.strip()] *)
Lemma strip_idem (s : pystr) : PyStr.strip (PyStr.strip s) = PyStr.strip s.
Proof.
  unfold PyStr.strip.
  destruct (lstrip_head s) as [E|(c & r & E & Hc)]; rewrite E.
  - reflexivity.
  - rewrite (rstrip_cons_nonspace _ _ Hc). cbn [PyStr.lstrip]. rewrite Hc.
    rewrite <- (rstrip_cons_nonspace _ _ Hc). apply rstrip_idem.
Qed.

Lemma relabel_strip_idem (df : DataFrame) :
  relabel PyStr.strip (relabel PyStr.strip df) = relabel PyStr.strip df.
Proof.
  unfold relabel. cbn [data nrows]. f_equal. rewrite map_map.
  apply map_ext. intros c. cbn [fst snd]. now rewrite strip_idem.
Qed.

(* ===================================================================== *)
(** ** Further properties of [standardize_data] *)
(* ===================================================================== *)

(** X1. A frame that was not recognised is not changed by a second call:
    the call on the frame the first call returned gives that frame back,
    labelled Unknown, and leaves it as it is. *)
Theorem unknown_result_is_stable (df : DataFrame) :
  is_xiaohongshu (map PyStr.strip (columns df)) = false ->
  is_channels (map PyStr.strip (columns df)) = false ->
  let out := returned_frame (snd (standardize_data parse df)) in
  snd (standardize_data parse df) = OK (out, Unknown, []) /\
  standardize_data parse out = (out, OK (out, Unknown, [])).
Proof.
  intros HA HB.
  assert (HA' : is_xiaohongshu (columns (relabel PyStr.strip df)) = false)
    by (rewrite columns_relabel; exact HA).
  assert (HB' : is_channels (columns (relabel PyStr.strip df)) = false)
    by (rewrite columns_relabel; exact HB).
  assert (E : snd (standardize_data parse df)
              = OK (relabel PyStr.strip df, Unknown, [])).
  { rewrite standardize_data_snd. unfold standardize_stripped. cbv zeta.
    now rewrite HA', HB'. }
  cbv zeta. rewrite E. cbn [returned_frame]. split; [reflexivity|].
  unfold standardize_data. cbv zeta. rewrite relabel_strip_idem. f_equal.
  unfold standardize_stripped. cbv zeta. now rewrite HA', HB'.
Qed.

(* ===================================================================== *)
(** ** The shortened title (line 187) *)
(* ===================================================================== *)

Lemma dots_length : List.length (py "...") = 3.
Proof. vm_compute. reflexivity. Qed.

(** X2. The shortened title has at most 23 characters, begins with the
    same 20 characters as the title, is the title itself when that has at
    most 20 characters, and shortening it again changes nothing. *)
Theorem short_title_bounded (s : pystr) :
  List.length (short_title s) <= 23 /\
  firstn 20 (short_title s) = firstn 20 s /\
  (List.length s <= 20 -> short_title s = s) /\
  short_title (short_title s) = short_title s.
Proof.
  destruct (Nat.ltb 20 (List.length s)) eqn:L.
  - assert (S1 : short_title s = firstn 20 s ++ py "...")
      by (unfold short_title; now rewrite L).
    apply Nat.ltb_lt in L.
    assert (F : List.length (firstn 20 s) = 20) by (apply firstn_length_le; lia).
    assert (E : firstn 20 (firstn 20 s ++ py "...") = firstn 20 s).
    { rewrite firstn_app, F, Nat.sub_diag, firstn_O, app_nil_r.
      now rewrite firstn_firstn, Nat.min_id. }
    rewrite S1. split; [|split; [|split]].
    + rewrite length_app, F, dots_length. lia.
    + exact E.
    + intros H. lia.
    + unfold short_title. rewrite length_app, F, dots_length.
      change (Nat.ltb 20 (20 + 3)) with true. cbv iota. now rewrite E.
  - assert (S1 : short_title s = s) by (unfold short_title; now rewrite L).
    apply Nat.ltb_ge in L. rewrite !S1. split; [|split; [|split]].
    + lia.
    + reflexivity.
    + reflexivity.
    + reflexivity.
Qed.

(* ===================================================================== *)
(** ** The loader *)
(* ===================================================================== *)

Section LoaderProperties.

Variable stream : Type.
Variable exn : Type.
Variable read_csv : encoding -> stream -> stream * (exn + DataFrame).
Variable read_excel : stream -> stream * (exn + DataFrame).

(** X4. The loader reports a failure exactly when it returns [None],
    and then it reports one; with a frame it reports nothing. *)
Theorem load_data_reports_iff_none (file : UploadedFile stream) :
  let load := load_data read_csv read_excel file in
  (returned load = None <-> List.length (reported load) = 1) /\
  (returned load <> None <-> reported load = []).
Proof.
  cbv zeta. unfold load_data.
  destruct (endswith (py ".csv") (upload_name file)).
  - destruct (read_csv UTF8 (upload_stream file)) as [s1 [e1|df1]].
    + destruct (read_csv GBK s1) as [s2 [e2|df2]].
      * destruct (read_csv UTF16 s2) as [s3 [e3|df3]]; cbn;
          (split; split; intros H; try reflexivity; try discriminate; congruence).
      * cbn. split; split; intros H; try reflexivity; try discriminate; congruence.
    + cbn. split; split; intros H; try reflexivity; try discriminate; congruence.
  - destruct (read_excel (upload_stream file)) as [s1 [e1|df1]]; cbn;
      (split; split; intros H; try reflexivity; try discriminate; congruence).
Qed.

End LoaderProperties.

(* ===================================================================== *)
(** ** The header of the returned frame *)
(* ===================================================================== *)

Lemma columns_setitem (df : DataFrame) (key : pystr) (s : list cell) :
  columns (setitem df key s)
  = if PyStr.mem key (columns df) then columns df else columns df ++ [key].
Proof.
  destruct (PyStr.mem key (columns df)) eqn:M.
  - now apply columns_setitem_present.
  - unfold setitem. rewrite M. unfold columns. cbn [data].
    now rewrite map_app.
Qed.

Lemma mem_app (x : pystr) (a b : list pystr) :
  PyStr.mem x (a ++ b) = PyStr.mem x a || PyStr.mem x b.
Proof. unfold PyStr.mem. apply existsb_app. Qed.

Lemma NoDup_needed_cols : NoDup needed_cols.
Proof.
  unfold needed_cols.
  repeat (constructor;
          [intros H; apply mem_In in H; vm_compute in H; discriminate H|]).
  constructor.
Qed.

Lemma columns_fill_missing (df : DataFrame) (k : pystr) :
  columns (fill_missing df k)
  = if PyStr.mem k (columns df) then columns df else columns df ++ [k].
Proof.
  unfold columns at 1. rewrite data_fill_missing.
  destruct (PyStr.mem k (columns df)); [reflexivity|].
  now rewrite map_app.
Qed.

(** Completion appends the missing labels in the order of the list. *)
Lemma columns_completed (ks : list pystr) (df : DataFrame) :
  NoDup ks ->
  columns (fold_left fill_missing ks df)
  = columns df ++ filter (fun k => negb (PyStr.mem k (columns df))) ks.
Proof.
  intros ND. revert df. induction ND as [|k ks Hk ND IH]; intros df; cbn [fold_left filter].
  - now rewrite app_nil_r.
  - rewrite IH, columns_fill_missing.
    destruct (PyStr.mem k (columns df)) eqn:M; cbn [negb].
    + reflexivity.
    + rewrite <- app_assoc. cbn [app]. f_equal. f_equal.
      apply filter_ext_in. intros x Hx. rewrite mem_app.
      assert (E : PyStr.mem x [k] = false).
      { apply mem_not_In. intros [->|[]]. contradiction. }
      rewrite E. now rewrite orb_false_r.
Qed.

Lemma engagement_not_in_needed : PyStr.mem ENGAGEMENT_TOTAL needed_cols = false.
Proof. vm_compute. reflexivity. Qed.

Lemma columns_cleaned (df : DataFrame) :
  columns (cleaned parse df)
  = columns df
    ++ filter (fun k => negb (PyStr.mem k (columns df))) needed_cols
    ++ (if PyStr.mem ENGAGEMENT_TOTAL (columns df) then [] else [ENGAGEMENT_TOTAL]).
Proof.
  assert (E2 : columns (coerced_frame parse df)
               = columns df ++ filter (fun k => negb (PyStr.mem k (columns df))) needed_cols)
    by (rewrite columns_coerced_frame; apply columns_completed, NoDup_needed_cols).
  assert (E3 : columns
                 (if ctr_guard (field parse df CTR) (field parse df IMPRESSIONS)
                       (field parse df VIEWS)
                  then setitem (coerced_frame parse df) CTR
                         (map Num (series_div (field parse df VIEWS)
                                     (field parse df IMPRESSIONS)))
                  else coerced_frame parse df)
               = columns (coerced_frame parse df)).
  { destruct (ctr_guard _ _ _); [|reflexivity].
    apply columns_setitem_present.
    destruct (PyStr.mem CTR (columns (coerced_frame parse df))) eqn:M; [reflexivity|].
    apply mem_columns_filter in M. unfold coerced_frame in M. cbv zeta in M. cbn [data] in M.
    rewrite filter_label_map in M by apply coerce_labelled_fst.
    rewrite filter_completed in M.
    assert (HC : PyStr.mem CTR needed_cols = true) by (vm_compute; reflexivity).
    rewrite HC in M.
    destruct (filter (has_label CTR) (data df)); discriminate. }
  unfold cleaned. cbv zeta. rewrite columns_setitem, E3, E2.
  rewrite mem_app.
  assert (EN : PyStr.mem ENGAGEMENT_TOTAL
                 (filter (fun k => negb (PyStr.mem k (columns df))) needed_cols) = false).
  { apply mem_not_In. intros H. apply filter_In in H as [H _].
    apply mem_In in H. rewrite engagement_not_in_needed in H. discriminate. }
  rewrite EN, orb_false_r.
  destruct (PyStr.mem ENGAGEMENT_TOTAL (columns df)).
  - now rewrite app_nil_r.
  - now rewrite app_assoc.
Qed.

Lemma columns_merged (df df_std : DataFrame) :
  columns (merged parse df df_std) = columns df_std.
Proof.
  unfold merged.
  destruct (PyStr.mem FORWARDED (columns df)); cbn [andb]; [|reflexivity].
  destruct (PyStr.mem SHARES (columns df_std)) eqn:M; [|reflexivity].
  now apply columns_setitem_present.
Qed.

Lemma columns_mapped_frame (df : DataFrame) :
  columns (mapped_frame parse df)
  = map (dict_get (if is_xiaohongshu (columns df)
                   then rename_map_xhs else rename_map_channels))
        (columns df).
Proof.
  unfold mapped_frame. destruct (is_xiaohongshu (columns df)).
  - unfold rename. apply columns_relabel.
  - rewrite columns_merged. unfold rename. apply columns_relabel.
Qed.

(** X5. The header of the frame returned for a known platform: the source
    labels in their order, each stripped and looked up in the platform's
    table; then the canonical fields that are still missing, in the order of
    [needed_cols]; then the engagement total unless the source had that
    label. *)
Theorem output_header (df out : DataFrame) (p : platform) (fields : list pystr) :
  snd (standardize_data parse df) = OK (out, p, fields) -> p <> Unknown ->
  let renamed :=
    map (fun l => dict_get (rename_map_of p) (PyStr.strip l)) (columns df) in
  columns out
  = renamed
    ++ filter (fun k => negb (PyStr.mem k renamed)) needed_cols
    ++ (if PyStr.mem ENGAGEMENT_TOTAL renamed then [] else [ENGAGEMENT_TOTAL]).
Proof.
  intros H Hp. cbv zeta.
  destruct (known_platform_inv _ _ _ _ H Hp) as (_ & -> & _ & T & _).
  rewrite columns_cleaned, columns_mapped_frame, <- T, columns_relabel, map_map.
  reflexivity.
Qed.

(* ===================================================================== *)
(** ** Well-formed frames *)
(* ===================================================================== *)

Lemma wf_fill_missing (df : DataFrame) (k : pystr) :
  wf_frame df = true -> wf_frame (fill_missing df k) = true.
Proof.
  intros W. unfold fill_missing, setitem_scalar.
  destruct (PyStr.mem k (columns df)); [assumption|].
  apply wf_setitem; [assumption | apply repeat_length].
Qed.

Lemma wf_completed (ks : list pystr) (df : DataFrame) :
  wf_frame df = true -> wf_frame (fold_left fill_missing ks df) = true.
Proof.
  revert df. induction ks as [|k ks IH]; intros df W; cbn [fold_left]; [assumption|].
  apply IH. now apply wf_fill_missing.
Qed.

Lemma wf_coerced_frame (df : DataFrame) :
  wf_frame df = true -> wf_frame (coerced_frame parse df) = true.
Proof.
  intros W. pose proof (wf_completed needed_cols df W) as W1.
  unfold coerced_frame. cbv zeta. unfold wf_frame in *. cbn [data nrows].
  rewrite forallb_forall in *. intros c Hc.
  apply in_map_iff in Hc as (c0 & <- & H0).
  specialize (W1 c0 H0). unfold coerce_labelled.
  destruct (PyStr.mem (fst c0) numeric_cols); [|exact W1].
  cbn [snd]. unfold coerce_cells. rewrite length_map, coerce_series_length. exact W1.
Qed.

Lemma wf_cleaned (df : DataFrame) :
  wf_frame df = true -> wf_frame (cleaned parse df) = true.
Proof.
  intros W. unfold cleaned. cbv zeta.
  assert (W3 : wf_frame
                 (if ctr_guard (field parse df CTR) (field parse df IMPRESSIONS)
                       (field parse df VIEWS)
                  then setitem (coerced_frame parse df) CTR
                         (map Num (series_div (field parse df VIEWS)
                                     (field parse df IMPRESSIONS)))
                  else coerced_frame parse df) = true).
  { destruct (ctr_guard _ _ _); [|now apply wf_coerced_frame].
    apply wf_setitem; [now apply wf_coerced_frame|].
    rewrite length_map, series_div_length, !field_length by assumption.
    rewrite Nat.min_id. unfold coerced_frame. cbv zeta. cbn [nrows].
    rewrite nrows_completed. reflexivity. }
  apply wf_setitem; [exact W3|].
  rewrite length_map. unfold engagement_values.
  rewrite !series_add_length, !field_length by assumption. rewrite !Nat.min_id.
  destruct (ctr_guard _ _ _); [rewrite nrows_setitem|];
    unfold coerced_frame; cbv zeta; cbn [nrows]; rewrite nrows_completed; reflexivity.
Qed.

(** X6. Whatever the platform, a frame whose columns all have one value
    per row comes back as such a frame with the same number of rows. *)
Theorem result_is_well_formed (df out : DataFrame) (p : platform) (fields : list pystr) :
  wf_frame df = true ->
  snd (standardize_data parse df) = OK (out, p, fields) ->
  wf_frame out = true /\ nrows out = nrows df.
Proof.
  intros W H. rewrite standardize_data_snd in H.
  apply standardize_OK_inv in H as [_ E]. unfold normalized in E.
  assert (WS : wf_frame (relabel PyStr.strip df) = true) by now rewrite wf_relabel.
  destruct (is_xiaohongshu (columns (relabel PyStr.strip df))) eqn:HA;
    [|destruct (is_channels (columns (relabel PyStr.strip df)))];
    injection E as -> _ _.
  - split; [apply wf_cleaned, wf_mapped_frame; exact WS|].
    rewrite nrows_cleaned, nrows_mapped_frame. reflexivity.
  - split; [apply wf_cleaned, wf_mapped_frame; exact WS|].
    rewrite nrows_cleaned, nrows_mapped_frame. reflexivity.
  - split; [exact WS | reflexivity].
Qed.

(* ===================================================================== *)
(** ** Passing a result back in *)
(* ===================================================================== *)

Lemma dict_get_cases (d : list (pystr * pystr)) (k : pystr) :
  dict_get d k = k \/ In (dict_get d k) (map snd d).
Proof.
  induction d as [|[k' v] d IH]; cbn [dict_get map snd In]; [now left|].
  destruct (PyStr.eqb k' k); [right; now left|].
  destruct IH as [IH|IH]; [now left | right; now right].
Qed.

Lemma existsb_false {A : Type} (f : A -> bool) (l : list A) :
  existsb f l = false <-> forall x, In x l -> f x = false.
Proof.
  induction l as [|a l IH]; cbn [existsb In].
  - split; [intros _ x [] | reflexivity].
  - rewrite orb_false_iff, IH. split.
    + intros [Ha Hl] x [<-|Hx]; [exact Ha | now apply Hl].
    + intros H. split; [apply H; now left | intros x Hx; apply H; now right].
Qed.

Lemma plain_tests (cols : list pystr) :
  (forall x, In x cols -> plain x) ->
  is_xiaohongshu cols = false /\ is_channels cols = false.
Proof.
  intros H. split.
  - unfold is_xiaohongshu. apply existsb_false. intros x Hx. apply (H x Hx).
  - unfold is_channels. cbn [existsb]. rewrite orb_false_r.
    assert (M : forall n, (forall x, In x cols -> x <> n) -> PyStr.mem n cols = false).
    { intros n Hn. apply mem_not_In. intros Hin. exact (Hn n Hin eq_refl). }
    rewrite !M; [reflexivity | | |]; intros x Hx; apply (H x Hx).
Qed.

Ltac plain_by_computation :=
  unfold plain; split;
  [vm_compute; reflexivity
  |split; [|split]; apply pystr_eqb_neq; vm_compute; reflexivity].

Lemma plain_canonical (x : pystr) :
  In x needed_cols \/ x = ENGAGEMENT_TOTAL -> plain (PyStr.strip x).
Proof.
  intros [H| ->]; [|plain_by_computation].
  cbv [needed_cols In] in H.
  destruct H as [<-|[<-|[<-|[<-|[<-|[<-|[<-|[<-|[<-|[]]]]]]]]]]; plain_by_computation.
Qed.

Lemma channels_values_needed (v : pystr) :
  In v (map snd rename_map_channels) -> In v needed_cols.
Proof.
  cbv [rename_map_channels map snd In].
  intros H.
  repeat (destruct H as [<-|H]; [cbv [needed_cols In]; tauto|]).
  destruct H.
Qed.

(** X7. A frame returned for the second platform is not recognised when
    it is passed in again: none of its labels has a signature any more,
    and the second call returns it as Unknown with an empty field list. *)
Theorem channels_result_is_unknown (df out : DataFrame) (fields : list pystr) :
  snd (standardize_data parse df) = OK (out, Channels, fields) ->
  snd (standardize_data parse out) = OK (relabel PyStr.strip out, Unknown, []).
Proof.
  intros H.
  assert (Hp : Channels <> Unknown) by discriminate.
  destruct (known_platform_inv _ _ _ _ H Hp) as (_ & Eout & _ & T & HC).
  destruct (HC eq_refl) as [HA _].
  assert (Hh : columns out
               = map (fun l => dict_get (rename_map_of Channels) (PyStr.strip l)) (columns df)
                 ++ filter (fun k => negb (PyStr.mem k
                              (map (fun l => dict_get (rename_map_of Channels) (PyStr.strip l))
                                 (columns df)))) needed_cols
                 ++ (if PyStr.mem ENGAGEMENT_TOTAL
                          (map (fun l => dict_get (rename_map_of Channels) (PyStr.strip l))
                             (columns df))
                     then [] else [ENGAGEMENT_TOTAL])).
  { rewrite Eout, columns_cleaned, columns_mapped_frame, <- T, columns_relabel, map_map.
    reflexivity. }
  assert (P : forall x, In x (columns (relabel PyStr.strip out)) -> plain x).
  { intros x Hx. rewrite columns_relabel in Hx.
    apply in_map_iff in Hx as (lam & <- & Hlam).
    rewrite Hh in Hlam. apply in_app_or in Hlam as [Hlam|Hlam].
    - apply in_map_iff in Hlam as (l0 & <- & Hl0).
      cbn [rename_map_of].
      destruct (dict_get_cases rename_map_channels (PyStr.strip l0)) as [E|E].
      + rewrite E, strip_idem.
        assert (Hc : PyStr.contains NOTE_TITLE (PyStr.strip l0) = false).
        { unfold is_xiaohongshu in HA.
          apply (proj1 (existsb_false _ _) HA).
          rewrite columns_relabel. now apply in_map. }
        unfold plain. split; [exact Hc|].
        split; [|split]; intros X; rewrite X in E; vm_compute in E; discriminate E.
      + apply plain_canonical. left. now apply channels_values_needed.
    - apply plain_canonical. apply in_app_or in Hlam as [Hlam|Hlam].
      + left. apply filter_In in Hlam. tauto.
      + right. destruct (PyStr.mem ENGAGEMENT_TOTAL _); [destruct Hlam|].
        destruct Hlam as [<-|[]]. reflexivity. }
  destruct (plain_tests _ P) as [TA TB].
  rewrite standardize_data_snd. unfold standardize_stripped. cbv zeta.
  rewrite TA, TB. reflexivity.
Qed.

(* ===================================================================== *)
(** ** What the page reads from the returned frame *)
(* ===================================================================== *)

Lemma at_most_one_coerced_frame_other (df : DataFrame) (K : pystr) :
  PyStr.mem K needed_cols = false ->
  at_most_one (coerced_frame parse df) K = at_most_one df K.
Proof.
  intros HK. unfold at_most_one, coerced_frame. cbv zeta. cbn [data].
  rewrite filter_label_map by apply coerce_labelled_fst.
  rewrite length_map, filter_completed, HK. reflexivity.
Qed.


Lemma numeric_cleaned_engagement_doubled (df : DataFrame) :
  at_most_one df ENGAGEMENT_TOTAL = false ->
  numeric (cleaned parse df) ENGAGEMENT_TOTAL = Raise TypeError.
Proof.
  intros H. unfold cleaned. cbv zeta.
  set (d3 := if ctr_guard _ _ _ then _ else _).
  assert (H3 : at_most_one d3 ENGAGEMENT_TOTAL = false).
  { unfold d3. destruct (ctr_guard _ _ _); [rewrite at_most_one_setitem|];
      rewrite at_most_one_coerced_frame_other by apply engagement_not_in_needed;
      exact H. }
  unfold numeric, getitem. rewrite filter_setitem_same.
  unfold at_most_one in H3.
  destruct (filter (has_label ENGAGEMENT_TOTAL) (data d3)) as [|c [|c' l]];
    try discriminate H3.
  reflexivity.
Qed.

Lemma dict_get_engagement (d : list (pystr * pystr)) (l : pystr) :
  PyStr.mem ENGAGEMENT_TOTAL (map fst d) = false ->
  PyStr.mem ENGAGEMENT_TOTAL (map snd d) = false ->
  PyStr.eqb (dict_get d l) ENGAGEMENT_TOTAL = PyStr.eqb l ENGAGEMENT_TOTAL.
Proof.
  intros Hk Hv. destruct (PyStr.eqb l ENGAGEMENT_TOTAL) eqn:E.
  - apply pystr_eqb_eq in E. subst l. rewrite dict_get_absent; [apply pystr_eqb_refl|].
    now apply mem_not_In.
  - destruct (dict_get_cases d l) as [X|X].
    + now rewrite X.
    + apply pystr_eqb_neq. intros Y. rewrite Y in X.
      apply mem_In in X. congruence.
Qed.

Lemma at_most_one_mapped_engagement (df : DataFrame) :
  at_most_one (mapped_frame parse df) ENGAGEMENT_TOTAL
  = at_most_one df ENGAGEMENT_TOTAL.
Proof.
  assert (R : forall d,
             PyStr.mem ENGAGEMENT_TOTAL (map fst d) = false ->
             PyStr.mem ENGAGEMENT_TOTAL (map snd d) = false ->
             at_most_one (rename d df) ENGAGEMENT_TOTAL = at_most_one df ENGAGEMENT_TOTAL).
  { intros d Hk Hv. unfold at_most_one. rewrite !filter_label_length.
    unfold rename. rewrite columns_relabel. f_equal.
    induction (columns df) as [|l ls IH]; cbn [map filter]; [reflexivity|].
    rewrite (dict_get_engagement d l Hk Hv).
    destruct (PyStr.eqb l ENGAGEMENT_TOTAL); cbn [List.length]; rewrite IH; reflexivity. }
  unfold mapped_frame. destruct (is_xiaohongshu (columns df)).
  - apply R; vm_compute; reflexivity.
  - rewrite at_most_one_merged. apply R; vm_compute; reflexivity.
Qed.



(** X9. When lines 88-91 have rewritten the CTR column, the test of line
    144 finds valid exposure, so the page shows the rewritten CTR; and when
    that test fails, the CTR column is the coerced one and no quotient. *)
Theorem fallback_implies_valid_exposure (df out : DataFrame) (p : platform)
        (fields : list pystr) :
  snd (standardize_data parse df) = OK (out, p, fields) -> p <> Unknown ->
  let m := mapped_frame parse (relabel PyStr.strip df) in
  exists b,
    has_valid_exposure out = OK b /\
    (ctr_guard (field parse m CTR) (field parse m IMPRESSIONS) (field parse m VIEWS) = true ->
     b = true /\
     numeric out CTR = OK (series_div (field parse m VIEWS) (field parse m IMPRESSIONS))) /\
    (b = false -> numeric out CTR = OK (field parse m CTR)).
Proof.
  intros H Hp. cbv zeta.
  destruct (known_platform_frame _ _ _ _ H Hp) as (-> & U & _ & _).
  set (m := mapped_frame parse (relabel PyStr.strip df)) in *.
  unfold has_valid_exposure, column_sum.
  repeat (rewrite numeric_cleaned by (try distinct; try apply U; in_list); cbn [bind]).
  rewrite numeric_cleaned_ctr by (apply U; in_list).
  eexists. split; [reflexivity|]. unfold ctr_values, ctr_guard.
  destruct (PrimFloat.ltb (series_sum (field parse m VIEWS))
              (series_sum (field parse m IMPRESSIONS))).
  - split; [|discriminate]. intros G. rewrite G. split; reflexivity.
  - rewrite andb_false_r. split; [discriminate | reflexivity].
Qed.

(** X10. When the stripped source has two columns under the engagement
    total, the frame is returned with both, and the second total of the
    page (line 139) raises. *)
Theorem doubled_engagement_breaks_page (df out : DataFrame) (p : platform)
        (fields : list pystr) :
  snd (standardize_data parse df) = OK (out, p, fields) -> p <> Unknown ->
  at_most_one (relabel PyStr.strip df) ENGAGEMENT_TOTAL = false ->
  getitem out ENGAGEMENT_TOTAL <> OK (Series (map Num (engagement_values parse
                                       (mapped_frame parse (relabel PyStr.strip df))))) /\
  kpi_sums out = Raise TypeError.
Proof.
  intros H Hp HE.
  destruct (known_platform_frame _ _ _ _ H Hp) as (-> & U & _ & _).
  set (m := mapped_frame parse (relabel PyStr.strip df)) in *.
  assert (HE' : at_most_one m ENGAGEMENT_TOTAL = false)
    by (unfold m; rewrite at_most_one_mapped_engagement; exact HE).
  pose proof (numeric_cleaned_engagement_doubled _ HE') as R.
  split.
  - intros G. unfold numeric in R. rewrite G in R. cbn [bind] in R.
    rewrite floats_of_Num in R. discriminate R.
  - unfold kpi_sums, column_sum.
    rewrite numeric_cleaned by (try distinct; try apply U; in_list).
    cbn [bind]. rewrite R. reflexivity.
Qed.

(* ===================================================================== *)
(** ** Padding of the header *)
(* ===================================================================== *)

Lemma relabel_determined (f : pystr -> pystr) (l l' : list column) :
  map (fun c => f (fst c)) l = map (fun c => f (fst c)) l' ->
  map snd l = map snd l' ->
  map (fun c : column => (f (fst c), snd c)) l
  = map (fun c : column => (f (fst c), snd c)) l'.
Proof.
  revert l'. induction l as [|c l IH]; intros [|c' l'] Hf Hs; cbn [map] in *;
    try discriminate; [reflexivity|].
  injection Hf as Hf1 Hf2. injection Hs as Hs1 Hs2.
  rewrite Hf1, Hs1. f_equal. now apply IH.
Qed.

(** X11. White space around the column names never matters: two frames
    with the same values and the same names once stripped get the same
    result, frame, label and fields, or the same exception. In particular
    the call on a frame and on that frame with its labels stripped
    beforehand agree. *)
Theorem padding_is_irrelevant (df df' : DataFrame) :
  nrows df = nrows df' ->
  map snd (data df) = map snd (data df') ->
  map PyStr.strip (columns df) = map PyStr.strip (columns df') ->
  standardize_data parse df = standardize_data parse df' /\
  standardize_data parse (relabel PyStr.strip df) = standardize_data parse df.
Proof.
  intros Hn Hv Hl.
  assert (E : relabel PyStr.strip df = relabel PyStr.strip df').
  { unfold relabel. rewrite Hn. f_equal. apply relabel_determined; [|exact Hv].
    unfold columns in Hl. rewrite !map_map in Hl. exact Hl. }
  split.
  - unfold standardize_data. cbv zeta. rewrite E. reflexivity.
  - unfold standardize_data. cbv zeta. rewrite relabel_strip_idem. reflexivity.
Qed.
End Properties.

(* ===================================================================== *)
(** ** The claims on the sample frames *)
(* ===================================================================== *)

Ltac run := vm_compute; reflexivity.

(** Both signatures: Xiaohongshu. The second alone, behind a padded
    header: Channels. Neither: Unknown. *)
Lemma C1_detection_order_witness :
  (exists out,
     snd (standardize_data reads_nothing both_signatures)
     = OK (out, Xiaohongshu, needed_cols)) /\
  (exists out,
     snd (standardize_data reads_nothing split_shares) = OK (out, Channels, needed_cols)) /\
  snd (standardize_data reads_nothing padded_unknown)
  = OK (relabel PyStr.strip padded_unknown, Unknown, []).
Proof.
  split; [|split].
  - destruct (C1_detection_order reads_nothing both_signatures) as [HA _].
    destruct HA as [_ HR].
    + apply is_xiaohongshu_spec. run.
    + apply HR. run.
  - destruct (C1_detection_order reads_nothing split_shares) as (_ & HB & _).
    destruct HB as [_ HR].
    + apply is_xiaohongshu_not. run.
    + apply is_channels_spec. run.
    + apply HR. run.
  - destruct (C1_detection_order reads_nothing padded_unknown) as (_ & _ & HU & _).
    apply HU; [apply is_xiaohongshu_not; run | apply is_channels_not; run].
Defined.

(** A row without impressions gets the quotient 1 / 0. *)
Lemma C2_ctr_fallback_witness :
  wf_frame zero_impression_row = true /\
  exists rewritten,
    numeric (returned_frame (snd (standardize_data reads_nothing zero_impression_row))) CTR
    = OK rewritten /\
    nth_error rewritten 0 = Some (PrimFloat.div 1 0) /\
    nth_error rewritten 1 = Some (PrimFloat.div 1 3).
Proof.
  split; [run|].
  destruct (C2_ctr_fallback reads_nothing zero_impression_row
              (returned_frame (snd (standardize_data reads_nothing zero_impression_row)))
              Xiaohongshu needed_cols)
    as (_ & _ & _ & _ & _ & _ & HG); [run | run | discriminate |].
  destruct HG as (rewritten & Hr & _ & Hrow); [run|].
  exists rewritten. split; [exact Hr|]. split; apply Hrow; run.
Defined.

(** The claim has the first row keep 0: it holds infinity. *)
Lemma C2_zero_impressions_counterexample :
  exists out,
    snd (standardize_data reads_nothing zero_impression_row)
    = OK (out, Xiaohongshu, needed_cols) /\
    numeric out IMPRESSIONS = OK [0%float; 3%float] /\
    numeric out VIEWS = OK [1%float; 1%float] /\
    numeric out CTR = OK [infinity; PrimFloat.div 1 3] /\
    infinity <> 0%float.
Proof.
  exists (returned_frame (snd (standardize_data reads_nothing zero_impression_row))).
  repeat split; try run.
  intros H. apply (f_equal is_zero) in H. vm_compute in H. discriminate.
Qed.

(** With no views either in that row, the quotient is a blank. *)
Lemma C2_zero_over_zero_example :
  exists out,
    snd (standardize_data reads_nothing empty_first_row)
    = OK (out, Xiaohongshu, needed_cols) /\
    numeric out IMPRESSIONS = OK [0%float; 3%float] /\
    numeric out VIEWS = OK [0%float; 1%float] /\
    numeric out CTR = OK [nan; PrimFloat.div 1 3].
Proof.
  exists (returned_frame (snd (standardize_data reads_nothing empty_first_row))).
  repeat split; run.
Qed.

(** Shares [3, 5], forwarded [2, 1]: every engagement total is their sum
    with three zeros. *)
Lemma C3_engagement_total_witness :
  wf_frame split_shares = true /\
  In ENGAGEMENT_TOTAL
     (columns (returned_frame (snd (standardize_data reads_nothing split_shares)))) /\
  forall c,
    In c (data (returned_frame (snd (standardize_data reads_nothing split_shares)))) ->
    fst c = ENGAGEMENT_TOTAL ->
    nth_error (snd c) 1 = Some (Num 6%float).
Proof.
  split; [run|].
  destruct (C3_engagement_total reads_nothing split_shares
              (returned_frame (snd (standardize_data reads_nothing split_shares)))
              Channels needed_cols)
    as (likes & comments & favorites & shares & Hl & Hc & Hf & Hs & _ & _ & _ & _ & Hin & Hall);
    [run | run | discriminate |].
  split; [exact Hin|].
  intros c Hc' Ec. destruct (Hall c Hc' Ec) as [_ Hrow].
  vm_compute in Hl, Hc, Hf, Hs.
  injection Hl as <-. injection Hc as <-. injection Hf as <-. injection Hs as <-.
  apply (Hrow 1 0%float 0%float 0%float 6%float); reflexivity.
Defined.

(** Nothing but the signature: the title column is 0, like the others. *)
Lemma C4_missing_fields_zero_witness :
  getitem (returned_frame (snd (standardize_data reads_nothing no_canonical_field))) TITLE
  = OK (Series [Num 0%float; Num 0%float]) /\
  getitem (returned_frame (snd (standardize_data reads_nothing no_canonical_field))) CTR
  = OK (Series [Num 0%float; Num 0%float]).
Proof.
  destruct (C4_missing_fields_zero reads_nothing no_canonical_field
              (returned_frame (snd (standardize_data reads_nothing no_canonical_field)))
              Xiaohongshu needed_cols)
    as (_ & _ & HK & HC); [run | discriminate |].
  split.
  - apply (HK TITLE); [now left | | ].
    + apply mem_not_In. run.
    + apply pystr_eqb_neq. run.
  - apply HC; [|left]; apply mem_not_In; run.
Defined.

(** The claim has the missing title filled with the empty text. *)
Lemma C4_title_default_counterexample :
  exists out,
    snd (standardize_data reads_nothing no_canonical_field)
    = OK (out, Xiaohongshu, needed_cols) /\
    PyStr.mem TITLE
      (columns (mapped_frame reads_nothing (relabel PyStr.strip no_canonical_field))) = false /\
    getitem out TITLE = OK (Series [Num 0%float; Num 0%float]) /\
    getitem out TITLE <> OK (Series [Str []; Str []]).
Proof.
  exists (returned_frame (snd (standardize_data reads_nothing no_canonical_field))).
  repeat split; try run.
  intros H. vm_compute in H. discriminate.
Qed.

(** The example of the specification: [3, 5] and [2, 1] give [5, 6]. *)
Lemma C5_shares_merged_witness :
  wf_frame split_shares = true /\
  numeric (returned_frame (snd (standardize_data reads_nothing split_shares))) SHARES
  = OK [5%float; 6%float].
Proof.
  split; [run|].
  destruct (C5_shares_merged reads_nothing split_shares
              (returned_frame (snd (standardize_data reads_nothing split_shares)))
              needed_cols [Num 3%float; Num 5%float] [Num 2%float; Num 1%float])
    as (H & _); [run | run | run | run |].
  exact H.
Defined.

(** The claim has the shares be the sum of the two coerced values: plus
    and minus infinity sum to a blank, and the shares are 0. *)
Lemma C5_cancelling_shares_counterexample :
  exists out,
    snd (standardize_data reads_nothing cancelling_shares) = OK (out, Channels, needed_cols) /\
    getitem (rename rename_map_channels (relabel PyStr.strip cancelling_shares)) SHARES
    = OK (Series [Num infinity]) /\
    getitem (relabel PyStr.strip cancelling_shares) FORWARDED
    = OK (Series [Num neg_infinity]) /\
    numeric out SHARES = OK [0%float] /\
    series_add (coerce_series reads_nothing [Num infinity])
               (coerce_series reads_nothing [Num neg_infinity]) = [nan] /\
    nan <> 0%float.
Proof.
  exists (returned_frame (snd (standardize_data reads_nothing cancelling_shares))).
  repeat split; try run.
  intros H. apply (f_equal is_nan) in H. vm_compute in H. discriminate.
Qed.

(** A padded header comes back stripped. *)
Lemma C6_unknown_passes_through_witness :
  standardize_data reads_nothing padded_unknown
  = (relabel PyStr.strip padded_unknown,
     OK (relabel PyStr.strip padded_unknown, Unknown, [])) /\
  map snd (data (relabel PyStr.strip padded_unknown)) = map snd (data padded_unknown).
Proof.
  destruct (C6_unknown_passes_through reads_nothing padded_unknown) as (H & _ & Hv & _);
    [run | run |].
  split; [exact H | exact Hv].
Defined.

(** The claim has the frame come back with its labels as they were. *)
Lemma C6_labels_stripped_counterexample :
  is_xiaohongshu (map PyStr.strip (columns padded_unknown)) = false /\
  is_channels (map PyStr.strip (columns padded_unknown)) = false /\
  columns padded_unknown = [py " foo"; py "bar"] /\
  columns (returned_frame (snd (standardize_data reads_nothing padded_unknown)))
  = [py "foo"; py "bar"] /\
  columns (fst (standardize_data reads_nothing padded_unknown)) = [py "foo"; py "bar"] /\
  returned_frame (snd (standardize_data reads_nothing padded_unknown)) <> padded_unknown.
Proof.
  repeat split; try run.
  intros H. apply (f_equal columns) in H. vm_compute in H. discriminate.
Qed.

(** "N/A" among the views becomes 0 and the row stays. *)
Lemma C7_coerced_numbers_witness :
  wf_frame unparseable_views = true /\
  nrows (returned_frame (snd (standardize_data reads_nothing unparseable_views))) = 2 /\
  exists views,
    numeric (returned_frame (snd (standardize_data reads_nothing unparseable_views))) VIEWS
    = OK views /\
    nth_error views 0 = Some 0%float /\ Forall not_nan views.
Proof.
  split; [run|].
  destruct (C7_coerced_numbers reads_nothing unparseable_views
              (returned_frame (snd (standardize_data reads_nothing unparseable_views)))
              Xiaohongshu needed_cols)
    as (d2 & _ & _ & Hn & HK & _); [run | run | discriminate |].
  split; [exact Hn|].
  destruct (HK VIEWS) as (src & fs & Hsrc & _ & _ & Hnan & Ht & _ & Hout).
  - cbv [numeric_cols needed_cols tl In]. tauto.
  - exists fs. split; [|split].
    + apply Hout. apply pystr_eqb_neq. run.
    + vm_compute in Hsrc. injection Hsrc as <-. apply (Ht 0 (py "N/A")); run.
    + exact Hnan.
Defined.

(** The claim has every numeric value non-negative: -5 passes as it is. *)
Lemma C7_negative_counterexample :
  exists out,
    snd (standardize_data reads_nothing negative_views) = OK (out, Xiaohongshu, needed_cols) /\
    numeric out VIEWS = OK [(-5)%float] /\
    PrimFloat.ltb (-5)%float 0%float = true.
Proof.
  exists (returned_frame (snd (standardize_data reads_nothing negative_views))).
  repeat split; run.
Qed.



(** A remark column stays where it was, stripped, with its text. *)
Lemma C10_other_columns_kept_witness :
  nth_error (data (returned_frame (snd (standardize_data reads_nothing with_remark)))) 1
  = Some (py "备注", [Str (py "x")]).
Proof.
  assert (H : snd (standardize_data reads_nothing with_remark)
              = OK (returned_frame (snd (standardize_data reads_nothing with_remark)),
                    Channels, needed_cols)) by run.
  assert (Hp : Channels <> Unknown) by discriminate.
  destruct (C10_other_columns_kept reads_nothing with_remark _ Channels needed_cols H Hp)
    as [_ K].
  destruct (K 1 (py " 备注 ") [Str (py "x")]) as (v' & Hv & Ev).
  - run.
  - apply mem_not_In. run.
  - assert (E : PyStr.strip (py " 备注 ") = py "备注") by run.
    rewrite E in Hv, Ev. rewrite Ev in Hv; [exact Hv | apply mem_not_In; run |].
    apply pystr_eqb_neq. run.
Defined.

(* ===================================================================== *)
(** ** The further properties on the sample data *)
(* ===================================================================== *)

(** The padded, unrecognised frame comes back unchanged from a second call. *)
Lemma unknown_result_is_stable_witness :
  standardize_data reads_nothing
    (returned_frame (snd (standardize_data reads_nothing padded_unknown)))
  = (returned_frame (snd (standardize_data reads_nothing padded_unknown)),
     OK (returned_frame (snd (standardize_data reads_nothing padded_unknown)), Unknown, [])).
Proof.
  destruct (unknown_result_is_stable reads_nothing padded_unknown) as [_ H]; [run | run |].
  exact H.
Defined.

(** The header of the frame with a remark column. *)
Lemma output_header_witness :
  columns (returned_frame (snd (standardize_data reads_nothing with_remark)))
  = [TITLE; py "备注"; VIEWS; IMPRESSIONS; LIKES; COMMENTS; FAVORITES; SHARES;
     NEW_FOLLOWERS; CTR; ENGAGEMENT_TOTAL].
Proof.
  assert (H : snd (standardize_data reads_nothing with_remark)
              = OK (returned_frame (snd (standardize_data reads_nothing with_remark)),
                    Channels, needed_cols)) by run.
  assert (Hp : Channels <> Unknown) by discriminate.
  pose proof (output_header reads_nothing with_remark _ Channels needed_cols H Hp) as K.
  cbv zeta in K. rewrite K. run.
Defined.

(** Two rows in, two rows out, in every column. *)
Lemma result_is_well_formed_witness :
  wf_frame (returned_frame (snd (standardize_data reads_nothing split_shares))) = true /\
  nrows (returned_frame (snd (standardize_data reads_nothing split_shares))) = 2.
Proof.
  apply (result_is_well_formed reads_nothing split_shares _ Channels needed_cols); run.
Defined.

(** The result for the split shares, passed in again, is Unknown. *)
Lemma channels_result_is_unknown_witness :
  snd (standardize_data reads_nothing
         (returned_frame (snd (standardize_data reads_nothing split_shares))))
  = OK (relabel PyStr.strip
          (returned_frame (snd (standardize_data reads_nothing split_shares))),
        Unknown, []).
Proof.
  apply (channels_result_is_unknown reads_nothing split_shares _ needed_cols). run.
Defined.


(** Views [1, 1] and impressions [0, 3]: CTR is rewritten, and the page
    finds valid exposure. *)
Lemma fallback_implies_valid_exposure_witness :
  exists b,
    has_valid_exposure
      (returned_frame (snd (standardize_data reads_nothing zero_impression_row))) = OK b /\
    b = true.
Proof.
  destruct (fallback_implies_valid_exposure reads_nothing zero_impression_row
              (returned_frame (snd (standardize_data reads_nothing zero_impression_row)))
              Xiaohongshu needed_cols) as (b & Hb & Hg & _); [run | discriminate |].
  exists b. split; [exact Hb|]. apply Hg. run.
Defined.

(** Two engagement columns once stripped: the totals raise. *)
Lemma doubled_engagement_breaks_page_witness :
  kpi_sums (returned_frame (snd (standardize_data reads_nothing doubled_engagement)))
  = Raise TypeError.
Proof.
  apply (doubled_engagement_breaks_page reads_nothing doubled_engagement
           (returned_frame (snd (standardize_data reads_nothing doubled_engagement)))
           Channels needed_cols); [run | discriminate | run].
Defined.

(** The padded header of the first column of the split shares. *)
Lemma padding_is_irrelevant_witness :
  standardize_data reads_nothing split_shares
  = standardize_data reads_nothing
      (mkFrame 2 [ (py "视频描述 ", [Str (py "A"); Str (py "B")]);
                   (py " 分享量", [Num 3%float; Num 5%float]);
                   (py "转发聊天和朋友圈", [Num 2%float; Num 1%float]) ]).
Proof.
  apply (padding_is_irrelevant reads_nothing split_shares); run.
Defined.
